(** * go-dns: the framing and connection-lifecycle engine

    A shallow embedding of the server front-end of [github.com/jmanero/go-dns]:
    the pooled buffers ([GetBuffer], [FreeBuffer], [GrowBuffer]), the length
    header codec ([EncodeLength], [DecodeLength]), the response writers
    ([PacketWriter], [StreamWriter]), the dispatch guard ([Handle]), the
    datagram loop ([Serve]), the accept loop ([ServeStream]), the stream
    reassembly loop ([HandleStream]) and [Shutdown].

    Go [int]s are modelled as [Z]; every value the loops compute stays far
    below 2^63, so no wrap-around is written out for them.  The one narrowing
    conversion of the code, [uint16(len(msg)-2)], is written out ([uint16]).
    A runtime panic is a value of [panic]; code that can panic returns an
    [exit] or a [result]. *)

From Stdlib Require Import ZArith List Lia Bool.
From Stdlib Require Import Strings.Byte.
Import ListNotations.
Open Scope Z_scope.

(* ================================================================== *)
(** ** Panics and results *)

(** Go's [error] interface.  [multierr.Append] flattens, so an error is
    modelled by the list of the base errors it carries: [nil] is Go's [nil],
    a singleton is a plain error, a longer list is a multierr aggregate. *)
Definition error : Type := list nat.
Definition is_nil (e : error) : bool :=
  match e with [] => true | _ => false end.

(** The values a goroutine can panic with in this package. *)
Inductive panic : Type :=
| LengthGreaterThanCapacity      (* panic("length is greater than capacity") *)
| SliceBoundsOutOfRange          (* runtime error, s[lo:hi] *)
| IndexOutOfRange                (* runtime error, s[i] *)
| MakesliceLenOutOfRange         (* runtime error, make([]byte, n) *)
| GrowsliceLenOutOfRange         (* runtime error, append *)
| PanicError (err : error)       (* panic(err) *)
| PanicValue (code : nat).       (* whatever a handler panics with *)

Inductive result (A : Type) : Type :=
| Ok (a : A)
| Panic (p : panic).
Arguments Ok {A} a.
Arguments Panic {A} p.

Definition bind {A B : Type} (r : result A) (k : A -> result B) : result B :=
  match r with
  | Ok a => k a
  | Panic p => Panic p
  end.

Notation "x <- r ;; k" := (bind r (fun x => k))
  (at level 61, r at next level, right associativity).

(** How a loop of the engine ends: it returns, it panics (and takes the
    process down unless something recovers), or the step budget of the model
    is used up (which is no behaviour of the Go code; [HandleStream_budget]
    shows it does not happen). *)
Inductive exit (A : Type) : Type :=
| Returned (a : A)
| Panicking (p : panic)
| OutOfFuel.
Arguments Returned {A} a.
Arguments Panicking {A} p.
Arguments OutOfFuel {A}.

(* ================================================================== *)
(** ** Bytes and the 16-bit length header *)

Definition byte_to_Z (b : byte) : Z := Z.of_N (Byte.to_N b).

(** Go's conversion [byte(v)] of an unsigned value: the low 8 bits. *)
Definition byte_of_Z (v : Z) : byte :=
  match Byte.of_N (Z.to_N (v mod 256)) with
  | Some b => b
  | None => x00
  end.

(** Go's conversion [uint16(v)] of an [int]: the low 16 bits. *)
Definition uint16 (v : Z) : Z := v mod 65536.

(** Overwrite [dst] from offset [off] with [data] (which must fit). *)
Definition write_at (dst : list byte) (off : nat) (data : list byte) : list byte :=
  firstn off dst ++ data ++ skipn (off + length data) dst.

(** [binary.BigEndian.PutUint16(b, v)]: [_ = b[1]; b[0] = byte(v >> 8); b[1] = byte(v)]. *)
Definition EncodeLength (b : list byte) (v : Z) : result (list byte) :=
  match b with
  | _ :: _ :: rest => Ok (byte_of_Z (Z.shiftr v 8) :: byte_of_Z v :: rest)
  | _ => Panic IndexOutOfRange
  end.

(** [binary.BigEndian.Uint16(b)]: [_ = b[1]; uint16(b[1]) | uint16(b[0])<<8]. *)
Definition DecodeLength (b : list byte) : result Z :=
  match b with
  | b0 :: b1 :: _ => Ok (Z.lor (byte_to_Z b1) (Z.shiftl (byte_to_Z b0) 8))
  | _ => Panic IndexOutOfRange
  end.

(* ================================================================== *)
(** ** Slices and the allocator *)

(** A [[]byte] whose base is the start of its backing array (every buffer of
    this package is one): [ptr] names the backing array, [store] is its
    content (so [cap] is its length), [len] the slice's length. *)
Record slice : Type := mkSlice {
  ptr : nat;
  store : list byte;
  len : Z
}.

Definition cap (s : slice) : Z := Z.of_nat (length (store s)).

(** The Go runtime as this package sees it: the next fresh array; how much
    room beyond the request [append] rounds a new array up by; whether it
    refuses to allocate [n] bytes behind [c] bytes that are kept (its limit
    [maxAlloc] depends on the platform, what it rounds a request up to on
    its version); and which item of a [sync.Pool], if any, [Get] hands
    out. *)
Record allocator : Type := mkAlloc {
  next_ptr : nat;
  slack : Z -> Z -> nat;
  refuses : Z -> Z -> bool;
  pick : list slice -> option nat
}.

(** The runtime after an allocation. *)
Definition allocated (a : allocator) : allocator :=
  mkAlloc (S (next_ptr a)) (slack a) (refuses a) (pick a).

(** Whether an allocation of [n] bytes behind [c] kept ones is refused.
    No Go runtime refuses fewer than 2^31 bytes: [maxAlloc] is 2^32 - 1 or
    more on every platform, and a request is rounded up to less than twice
    its size.  Every Go runtime refuses more than 2^48 bytes: [maxAlloc] is
    2^48 or less on every platform. *)
Definition refused (a : allocator) (c n : Z) : bool :=
  (2147483648 <=? c + n) && (refuses a c n || (281474976710656 <? c + n)).

(** The check of [make] and of a growing [append]: a refused allocation
    panics with [p]. *)
Definition granted (p : panic) (a : allocator) (c n : Z) : result unit :=
  if refused a c n then Panic p else Ok tt.

(** [make([]byte, n)], once the runtime has granted it. *)
Definition make (a : allocator) (n : Z) : slice * allocator :=
  (mkSlice (next_ptr a) (repeat x00 (Z.to_nat n)) n, allocated a).

(** [s[lo:hi]], as the bytes it views.  Go checks [0 <= lo <= hi <= cap(s)]. *)
Definition sub (s : slice) (lo hi : Z) : result (list byte) :=
  if (0 <=? lo) && (lo <=? hi) && (hi <=? cap s)
  then Ok (firstn (Z.to_nat (hi - lo)) (skipn (Z.to_nat lo) (store s)))
  else Panic SliceBoundsOutOfRange.

(** [s[lo:]], that is [s[lo:len(s)]]. *)
Definition from (s : slice) (lo : Z) : result (list byte) := sub s lo (len s).

(** [s[:hi]]: the same array with another length. *)
Definition upto (s : slice) (hi : Z) : result slice :=
  if (0 <=? hi) && (hi <=? cap s)
  then Ok (mkSlice (ptr s) (store s) hi)
  else Panic SliceBoundsOutOfRange.

(** The bytes a slice holds: [s[0:len(s)]]. *)
Definition bytes (s : slice) : list byte := firstn (Z.to_nat (len s)) (store s).

(** The builtin [append(s, data...)]: in place while the capacity lasts,
    otherwise (once the runtime has granted it) into a new array that takes
    over the slice's bytes; what lies beyond them in the new array is
    zero. *)
Definition append (a : allocator) (s : slice) (data : list byte) : slice * allocator :=
  let n := Z.of_nat (length data) in
  if len s + n <=? cap s
  then (mkSlice (ptr s) (write_at (store s) (Z.to_nat (len s)) data) (len s + n), a)
  else (mkSlice (next_ptr a)
                (bytes s ++ data ++ repeat x00 (slack a (cap s) n))
                (len s + n),
        allocated a).

(** [GrowBuffer] expands a buffer slice to the requested capacity and length.
    The [make([]byte, n)] it appends is [n] zero bytes; the runtime can
    refuse them, and the array [append] moves the buffer to. *)
Definition GrowBuffer (a : allocator) (buf : slice) (capacity length : Z)
  : result (slice * allocator) :=
  if length >? capacity then Panic LengthGreaterThanCapacity
  else
    let n := capacity - cap buf in
    grown <- (if n >? 0
              then full <- upto buf (cap buf) ;;
                   _ <- granted MakesliceLenOutOfRange a 0 n ;;
                   _ <- granted GrowsliceLenOutOfRange a (cap buf) n ;;
                   Ok (append a full (repeat x00 (Z.to_nat n)))
              else Ok (buf, a)) ;;
    (* Return a subslice at the requested length *)
    b <- upto (fst grown) length ;;
    Ok (b, snd grown).

(** The pool: [buffers.Get()] takes out and hands out any one of the buffers
    put back earlier, or ignores them and hands out a new
    [make([]byte, 4096)] (which no runtime refuses); which of these, is the
    runtime's choice. *)
Definition pool : Type := list slice.

Definition pool_Get (a : allocator) (p : pool) : slice * allocator * pool :=
  match pick a p with
  | Some i =>
      match nth_error p i with
      | Some b => (b, a, firstn i p ++ skipn (S i) p)
      | None => (make a 4096, p)
      end
  | None => (make a 4096, p)
  end.

(** [GetBuffer] gets a byte buffer from the pool. *)
Definition GetBuffer (a : allocator) (p : pool) (capacity length : Z)
  : result (slice * allocator * pool) :=
  let got := pool_Get a p in
  r <- GrowBuffer (snd (fst got)) (fst (fst got)) capacity length ;;
  Ok (r, snd got).

(** [FreeBuffer] returns a byte buffer to the pool. *)
Definition FreeBuffer (p : pool) (buf : slice) : pool := buf :: p.

(** The builtin [copy(dst, src)], on the array of [dst]: the number of bytes
    copied is the smaller of the two lengths. *)
Definition copy (dst : slice) (src : list byte) : slice * Z :=
  let n := Z.min (len dst) (Z.of_nat (length src)) in
  (mkSlice (ptr dst) (write_at (store dst) 0 (firstn (Z.to_nat n) src)) (len dst), n).

(* ================================================================== *)
(** ** Addresses, contexts, endpoints *)

Inductive Addr : Type :=
| TCPAddr (ip : list Z) (port : Z)
| UDPAddr (ip : list Z) (port : Z).

Inductive Context : Type :=
| Background
| WithCancel (parent : Context)
| Derived (tag : nat) (parent : Context).

(** What the server reads from, accepts on, writes to and closes. *)
Inductive endpoint : Type :=
| PacketConnOf (id : nat)
| ListenerOf (id : nat)
| ConnOf (id : nat).

Definition endpoint_eqb (x y : endpoint) : bool :=
  match x, y with
  | PacketConnOf i, PacketConnOf j => Nat.eqb i j
  | ListenerOf i, ListenerOf j => Nat.eqb i j
  | ConnOf i, ConnOf j => Nat.eqb i j
  | _, _ => false
  end.

Definition io_EOF : error := [1%nat].
Definition net_ErrClosed : error := [2%nat].
Definition ErrRead0 : error := [3%nat].          (* fmt.Errorf("Read 0") *)
Definition ErrNotStarted : error := [4%nat].     (* dnsmessage.ErrNotStarted *)

(** [errors.Is(err, io.EOF)] *)
Definition is_EOF (err : error) : bool := existsb (Nat.eqb 1) err.

(** [multierr.Append(left, right)] *)
Definition multierr_Append (left right : error) : error := left ++ right.

(* ================================================================== *)
(** ** Requests, writers, events *)

(** Modelled from the spec: [dnsmessage.Header] is a type of the external
    message codec, "decoded header fields (transaction id, opcode, response
    code, flags)". *)
Record Header : Type := mkHeader {
  ID : Z;
  Response : bool;
  OpCode : Z;
  Authoritative : bool;
  Truncated : bool;
  RecursionDesired : bool;
  RecursionAvailable : bool;
  AuthenticData : bool;
  CheckingDisabled : bool;
  RCode : Z
}.

Definition zero_Header : Header :=
  mkHeader 0 false 0 false false false false false false 0.

(** [Request]: the parsed header, the parser's message, the addresses,
    the context. *)
Record Request : Type := mkRequest {
  ReqHeader : Header;
  Parser : list byte;
  LocalAddr : option Addr;
  RemoteAddr : option Addr;
  ctx : Context
}.

(** The two implementations of [ResponseWriter]. *)
Inductive ResponseWriter : Type :=
| PacketWriter (conn : endpoint) (addr : option Addr)
| StreamWriter (conn : endpoint).

(** One call of [Server.Handle], with its arguments. *)
Record dispatch : Type := mkDispatch {
  d_ctx : Context;
  d_buf : list byte;
  d_writer : ResponseWriter;
  d_request : Request
}.

Inductive log_entry : Type :=
| handler_panic (p : panic)
| handler_parse (e : error)
| shutdown_close (e : error)
| connection_warn (e : error).

(** What the engine does to the world outside, in order. *)
(** What [server.Go] starts a goroutine for: a call of [Handle], or the
    loop of [HandleStream] on a connection. *)
Inductive goroutine : Type :=
| GoHandle (d : dispatch)
| GoHandleStream (c : Context) (conn : endpoint).

Inductive event : Type :=
| EvAddCloser (e : endpoint)                       (* closers.AddCloser *)
| EvBlock (e : endpoint)                           (* a Read, ReadFrom or Accept on e *)
| EvGo (g : goroutine)                             (* server.Go(...) *)
| EvHandle (d : dispatch)                          (* server.Handle(...) *)
| EvWrite (e : endpoint) (frame : list byte)       (* Conn.Write *)
| EvWriteTo (e : endpoint) (to : option Addr) (dgram : list byte) (* PacketConn.WriteTo *)
| EvClose (e : endpoint)                           (* Close() *)
| EvLog (l : log_entry).

(** An [io.Closer] registered with the server: what it closes, and what its
    [Close] returns. *)
Record closer : Type := mkCloser {
  closes : endpoint;
  close_result : error
}.

(** The mutable part of a [Server] and of the process around it. *)
Record state : Type := mkState {
  entries : list closer;        (* closers.entries *)
  tasks : Z;                    (* the sync.WaitGroup counter *)
  base : option Context;        (* canceler.base, once initialised *)
  canceled : bool;              (* canceler.cancel has been called *)
  closed : list endpoint;       (* endpoints closed so far *)
  buffers : pool;               (* the package's sync.Pool *)
  runtime : allocator;
  trace : list event
}.

Definition emit (ev : event) (st : state) : state :=
  mkState (entries st) (tasks st) (base st) (canceled st) (closed st)
          (buffers st) (runtime st) (trace st ++ [ev]).

Definition with_memory (a : allocator) (p : pool) (st : state) : state :=
  mkState (entries st) (tasks st) (base st) (canceled st) (closed st)
          p a (trace st).

Definition with_runtime (a : allocator) (st : state) : state :=
  with_memory a (buffers st) st.

(** [sync.WaitGroup.Add(n)] ([Done] is [Add(-1)]) *)
Definition Add (n : Z) (st : state) : state :=
  mkState (entries st) (tasks st + n) (base st) (canceled st) (closed st)
          (buffers st) (runtime st) (trace st).

(** [closers.AddCloser] *)
Definition AddCloser (c : closer) (st : state) : state :=
  emit (EvAddCloser (closes c))
    (mkState (entries st ++ [c]) (tasks st) (base st) (canceled st) (closed st)
             (buffers st) (runtime st) (trace st)).

(** [c.Close()] *)
Definition Close (c : closer) (st : state) : error * state :=
  (close_result c,
   emit (EvClose (closes c))
     (mkState (entries st) (tasks st) (base st) (canceled st)
              (closes c :: closed st) (buffers st) (runtime st) (trace st))).

(** [closers.CloseAll]: the loop over [cls.entries], with the error
    accumulated so far. *)
Fixpoint CloseAll_from (cs : list closer) (err : error) (st : state) : error * state :=
  match cs with
  | [] => (err, st)
  | c :: cs' =>
      let r := Close c st in
      CloseAll_from cs' (multierr_Append err (fst r)) (snd r)
  end.

Definition CloseAll (st : state) : error * state :=
  CloseAll_from (entries st) [] st.

(** [canceler.Context]: initialises the base context on the first call. *)
Definition Context_of (st : state) : Context * state :=
  match base st with
  | Some c => (c, st)
  | None =>
      (WithCancel Background,
       mkState (entries st) (tasks st) (Some (WithCancel Background)) (canceled st)
               (closed st) (buffers st) (runtime st) (trace st))
  end.

(** [Server.Shutdown], when its [select] lets it through
    ([Shutdown_returns] below): the wait itself changes nothing here.  The
    result is the named result [err] of the Go function, which no statement
    assigns. *)
Definition Shutdown (st : state) : error * state :=
  let err : error := [] in
  let r := CloseAll st in
  let st1 := if is_nil (fst r) then snd r
             else emit (EvLog (shutdown_close (fst r))) (snd r) in
  let st2 := match base st1 with
             | Some _ =>
                 mkState (entries st1) (tasks st1) (base st1) true (closed st1)
                         (buffers st1) (runtime st1) (trace st1)
             | None => st1
             end in
  (err, st2).

(** The [select] of [Shutdown] between [ctx.Done()] and the end of
    [server.Wait()]: it returns when the context given to [Shutdown] gets
    done or the task counter is at zero.  With a task that is counted and
    does not end, and a context that never gets done, [Shutdown] stays in
    it: it does not cancel and does not return. *)
Definition Shutdown_returns (ctx_done : bool) (st : state) : bool :=
  ctx_done || (tasks st =? 0).

(* ================================================================== *)
(** ** The response writers *)

(** Modelled from the spec: [dnsmessage.Builder] belongs to the external
    message codec ("new builder(header, buffer-with-reserved-prefix)",
    "finish -> final byte slice").  Of a builder the writers see the buffer
    it was started on and the message the codec has encoded behind it. *)
Record Builder : Type := mkBuilder {
  b_buf : slice;
  b_encoded : list byte;
  b_started : bool
}.

(** Modelled from the spec: the codec's building steps ("builder methods to
    append question/answer sections").  Whatever they make of the message,
    the buffer the builder was started on stays in front of it. *)
Definition Builder_encode (b : Builder) (m : list byte) : Builder :=
  mkBuilder (b_buf b) m (b_started b).

(** Modelled from the spec: [Builder.Finish] of the external codec
    ("finish -> final byte slice"): the message behind the buffer, in the
    buffer's array while it fits. *)
Definition Finish (a : allocator) (b : Builder) : (slice * allocator) + error :=
  if b_started b then inl (append a (b_buf b) (b_encoded b))
  else inr ErrNotStarted.

(** Writing the bytes [bs] a slice was viewed as back into its array. *)
Definition poke (s : slice) (bs : list byte) : slice :=
  mkSlice (ptr s) (bs ++ skipn (Z.to_nat (len s)) (store s)) (len s).

(** [PacketWriter.Send]: [wr.WriteTo(msg, wr.Addr)], panic on error. *)
Definition PacketWriter_Send (conn : endpoint) (addr : option Addr)
           (msg : list byte) (st : state) : state * result unit :=
  if existsb (endpoint_eqb conn) (closed st)
  then (st, Panic (PanicError net_ErrClosed))
  else (emit (EvWriteTo conn addr msg) st, Ok tt).

(** [StreamWriter.Send]: [wr.Write(frame)], panic on error. *)
Definition StreamWriter_Send (conn : endpoint)
           (frame : list byte) (st : state) : state * result unit :=
  if existsb (endpoint_eqb conn) (closed st)
  then (st, Panic (PanicError net_ErrClosed))
  else (emit (EvWrite conn frame) st, Ok tt).

(** [PacketWriter.SendBuilder] *)
Definition PacketWriter_SendBuilder (conn : endpoint) (addr : option Addr)
           (b : Builder) (st : state) : state * result unit :=
  match Finish (runtime st) b with
  | inr err => (st, Panic (PanicError err))
  | inl (msg, a) =>
      let r := PacketWriter_Send conn addr (bytes msg) (with_runtime a st) in
      match snd r with
      | Panic p => (fst r, Panic p)
      | Ok _ => (with_memory (runtime (fst r)) (FreeBuffer (buffers (fst r)) msg) (fst r),
                 Ok tt)
      end
  end.

(** [StreamWriter.SendBuilder] *)
Definition StreamWriter_SendBuilder (conn : endpoint)
           (b : Builder) (st : state) : state * result unit :=
  match Finish (runtime st) b with
  | inr err => (st, Panic (PanicError err))
  | inl (msg, a) =>
      (* Write a length header to the first two bytes of the frame *)
      match EncodeLength (bytes msg) (uint16 (len msg - 2)) with
      | Panic p => (with_runtime a st, Panic p)
      | Ok framed =>
          let msg := poke msg framed in
          let r := StreamWriter_Send conn (bytes msg) (with_runtime a st) in
          match snd r with
          | Panic p => (fst r, Panic p)
          | Ok _ => (with_memory (runtime (fst r)) (FreeBuffer (buffers (fst r)) msg) (fst r),
                     Ok tt)
          end
      end
  end.

(** The [ResponseWriter] interface, by implementation. *)
Definition Send (wr : ResponseWriter) : list byte -> state -> state * result unit :=
  match wr with
  | PacketWriter conn addr => PacketWriter_Send conn addr
  | StreamWriter conn => StreamWriter_Send conn
  end.

Definition SendBuilder (wr : ResponseWriter) : Builder -> state -> state * result unit :=
  match wr with
  | PacketWriter conn addr => PacketWriter_SendBuilder conn addr
  | StreamWriter conn => StreamWriter_SendBuilder conn
  end.

(** The connection a writer writes to. *)
Definition writer_conn (wr : ResponseWriter) : endpoint :=
  match wr with
  | PacketWriter conn _ => conn
  | StreamWriter conn => conn
  end.

(* ================================================================== *)
(** ** The connections of [server_test.go], and a listener *)

Record Datagram : Type := mkDatagram {
  dg_from : option Addr;
  dg_buf : list byte
}.

Record DatagramTester : Type := mkDatagramTester {
  dt_id : nat;
  datagrams : list Datagram;
  dt_LocalAddr : option Addr;
  dt_Close : error
}.

Record StreamTester : Type := mkStreamTester {
  st_id : nat;
  chunks : list (list byte);
  st_LocalAddr : option Addr;
  st_RemoteAddr : option Addr;
  st_Close : error
}.

(** A [net.Listener]: the connections it will hand out before [Accept]
    fails. *)
Record Listener : Type := mkListener {
  l_id : nat;
  backlog : list StreamTester;
  l_Addr : option Addr;
  l_Close : error
}.

(** [StreamTester.Read] on a destination of [room] bytes: the bytes copied,
    the error, the chunks left. *)
Definition StreamTester_Read (chs : list (list byte)) (room : nat)
  : list byte * error * list (list byte) :=
  match chs with
  | [] => ([], io_EOF, [])
  | ch :: rest =>
      let n := Nat.min room (length ch) in
      if Nat.eqb n (length ch) then (firstn n ch, [], rest)
      else if Nat.eqb n 0 then ([], ErrRead0, chs)
      else (firstn n ch, [], skipn n ch :: rest)
  end.

(** Reads that cannot fail to make progress: one per chunk and one per byte. *)
Fixpoint budget (chs : list (list byte)) : nat :=
  match chs with
  | [] => 0
  | ch :: rest => S (length ch + budget rest)
  end.

(* ================================================================== *)
(** ** The engine *)

Section Engine.

(** The message codec, an external collaborator: [Parser.Start] parses a
    header from a message, [Header_pack] is the encoding a new builder
    starts from. *)
Variable Start : list byte -> Header + error.
Variable Header_pack : Header -> list byte.

(** What the application's handler owns and may change. *)
Variable H : Type.

(** The fields of [Server] that are set once: the handler, which returns
    or panics, and the context hooks. *)
Record Server : Type := mkServer {
  ServeDNS : ResponseWriter -> Request -> H -> H * result unit;
  BaseContext : option (Context -> option Addr -> Context);
  ConnContext : option (Context -> endpoint -> Context)
}.

(** What a dispatch can touch: the handler's own state and the log. *)
Definition hworld : Type := (H * list log_entry)%type.

(** [dnsmessage.NewBuilder(buf, header)] *)
Definition NewBuilder (buf : slice) (h : Header) : Builder :=
  mkBuilder buf (Header_pack h) true.

(** [PacketWriter.Builder]: start building at the beginning of the buffer. *)
Definition PacketWriter_Builder (h : Header) (st : state) : state * result Builder :=
  match GetBuffer (runtime st) (buffers st) 4096 0 with
  | Panic p => (st, Panic p)
  | Ok (buf, a, p) => (with_memory a p st, Ok (NewBuilder buf h))
  end.

(** [StreamWriter.Builder]: start building after the first 2 bytes. *)
Definition StreamWriter_Builder (h : Header) (st : state) : state * result Builder :=
  match GetBuffer (runtime st) (buffers st) 4096 2 with
  | Panic p => (st, Panic p)
  | Ok (buf, a, p) => (with_memory a p st, Ok (NewBuilder buf h))
  end.

(** The deferred function of [Handle]: [recover()] stops a panic of the
    body and logs it. *)
Definition recovering (body : hworld * result unit) : hworld * result unit :=
  match snd body with
  | Panic value => ((fst (fst body), handler_panic value :: snd (fst body)), Ok tt)
  | Ok _ => body
  end.

(** [Server.Handle]: parse the header, then call the handler. *)
Definition Handle (server : Server) (c : Context) (buf : list byte)
           (wr : ResponseWriter) (req : Request) (hw : hworld)
  : hworld * result unit :=
  recovering
    match Start buf with
    | inr err => ((fst hw, handler_parse err :: snd hw), Ok tt)
    | inl header =>
        let req := mkRequest header buf (LocalAddr req) (RemoteAddr req) (ctx req) in
        let r := ServeDNS server wr req (fst hw) in
        ((fst r, snd hw), snd r)
    end.

(** [DatagramTester.ReadFrom] is the head of [Serve_loop]'s match on the
    datagrams left.  Where [server.Go] starts the goroutine of a datagram
    the trace has an [EvGo]; the goroutine then runs here to its end before
    the next read: one of the schedules Go allows. *)
Fixpoint Serve_loop (server : Server) (c : Context) (conn : DatagramTester)
         (dgs : list Datagram) (st : state) (hw : hworld)
  : state * hworld * exit error :=
  (* Get a 4k buffer to read the next datagram *)
  match GetBuffer (runtime st) (buffers st) 4096 4096 with
  | Panic p => (st, hw, Panicking p)
  | Ok (buf, a, p) =>
      let st := emit (EvBlock (PacketConnOf (dt_id conn))) (with_memory a p st) in
      match dgs with
      | [] => (st, hw, Returned net_ErrClosed)
      | d :: rest =>
          let cp := copy buf (dg_buf d) in
          let buf := fst cp in
          let size := snd cp in
          let from_addr := dg_from d in
          (* server.Go(func() { defer FreeBuffer(buf); server.Handle(...) }) *)
          let st := Add 1 st in
          match sub buf 0 size with
          | Panic p => (st, hw, Panicking p)
          | Ok payload =>
              let wr := PacketWriter (PacketConnOf (dt_id conn)) from_addr in
              let req := mkRequest zero_Header [] (dt_LocalAddr conn) from_addr c in
              let st := emit (EvGo (GoHandle (mkDispatch c payload wr req))) st in
              let st := emit (EvHandle (mkDispatch c payload wr req)) st in
              let r := Handle server c payload wr req hw in
              let st := with_memory (runtime st) (FreeBuffer (buffers st) buf) st in
              match snd r with
              | Panic p => (st, fst r, Panicking p)
              | Ok _ => Serve_loop server c conn rest (Add (-1) st) (fst r)
              end
          end
      end
  end.

(** [Server.Serve] handles DNS messages from a PacketConn. *)
Definition Serve (server : Server) (conn : DatagramTester) (st : state) (hw : hworld)
  : state * hworld * exit error :=
  let me := mkCloser (PacketConnOf (dt_id conn)) (dt_Close conn) in
  let st := AddCloser me (Add 1 st) in
  let cx := Context_of st in
  let c := match BaseContext server with
           | Some f => f (fst cx) (dt_LocalAddr conn)
           | None => fst cx
           end in
  let r := Serve_loop server c conn (datagrams conn) (snd cx) hw in
  (* defer conn.Close(); defer server.Done() *)
  (Add (-1) (snd (Close me (fst (fst r)))), snd (fst r), snd r).

(** The reassembly cursor of [HandleStream]. *)
Record cursor : Type := mkCursor {
  buf : slice;
  wpos : Z;
  rpos : Z
}.

(** The inner loop of [HandleStream]: read frames out of the buffer while
    there are at least 14 unread bytes.  [Returned] is the end of the loop,
    by its condition or by [break]. *)
Fixpoint frames (fuel : nat) (server : Server) (c : Context) (conn : StreamTester)
         (cur : cursor) (st : state) (hw : hworld)
  : cursor * state * hworld * exit unit :=
  if wpos cur - rpos cur >=? 14 then
    match fuel with
    | O => (cur, st, hw, OutOfFuel)
    | S fuel' =>
        (* Read the frame header *)
        match (b <- from (buf cur) (rpos cur) ;; DecodeLength b) with
        | Panic p => (cur, st, hw, Panicking p)
        | Ok size =>
            (* Make sure that the buffer has enough capacity to hold the whole frame *)
            match GrowBuffer (runtime st) (buf cur) size size with
            | Panic p => (cur, st, hw, Panicking p)
            | Ok (grown, a) =>
                let st := with_runtime a st in
                (* Check if the whole frame has been read into the buffer *)
                if size >? wpos cur - (rpos cur + 2)
                then (mkCursor grown (wpos cur) (rpos cur), st, hw, Returned tt)
                else
                  (* Step past the frame header *)
                  let rpos1 := rpos cur + 2 in
                  (* Send the message to the handler *)
                  match sub grown rpos1 (rpos1 + size) with
                  | Panic p => (mkCursor grown (wpos cur) rpos1, st, hw, Panicking p)
                  | Ok payload =>
                      let wr := StreamWriter (ConnOf (st_id conn)) in
                      let req := mkRequest zero_Header []
                                           (st_RemoteAddr conn) (st_RemoteAddr conn) c in
                      let st := emit (EvHandle (mkDispatch c payload wr req)) st in
                      let r := Handle server c payload wr req hw in
                      match snd r with
                      | Panic p => (mkCursor grown (wpos cur) rpos1, st, fst r, Panicking p)
                      | Ok _ =>
                          (* Step passed the processed message and check for another frame *)
                          frames fuel' server c conn
                                 (mkCursor grown (wpos cur) (rpos1 + size)) st (fst r)
                      end
                  end
            end
        end
    end
  else (cur, st, hw, Returned tt).

(** The shift of a trailing fragment to the front of the buffer:
    [wpos = copy(buf, buf[rpos:wpos]); rpos = 0; buf = buf[:cap(buf)]]. *)
Definition compact (cur : cursor) : result cursor :=
  src <- sub (buf cur) (rpos cur) (wpos cur) ;;
  let cp := copy (buf cur) src in
  full <- upto (fst cp) (cap (fst cp)) ;;
  Ok (mkCursor full (snd cp) 0).

(** [conn.Read(buf[wpos:]); wpos += nread], on the chunks left. *)
Definition read (chs : list (list byte)) (cur : cursor)
  : result (cursor * error * list (list byte)) :=
  dst <- from (buf cur) (wpos cur) ;;
  let r := StreamTester_Read chs (length dst) in
  let data := fst (fst r) in
  Ok (mkCursor (mkSlice (ptr (buf cur))
                        (write_at (store (buf cur)) (Z.to_nat (wpos cur)) data)
                        (len (buf cur)))
               (wpos cur + Z.of_nat (length data))
               (rpos cur),
      snd (fst r), snd r).

(** The outer loop of [HandleStream]. *)
Fixpoint stream_loop (fuel : nat) (server : Server) (c : Context) (conn : StreamTester)
         (chs : list (list byte)) (cur : cursor) (st : state) (hw : hworld)
  : cursor * state * hworld * exit unit :=
  match fuel with
  | O => (cur, st, hw, OutOfFuel)
  | S fuel' =>
      match read chs cur with
      | Panic p => (cur, st, hw, Panicking p)
      | Ok (cur, err, chs) =>
          let st := emit (EvBlock (ConnOf (st_id conn))) st in
          let r := frames (Z.to_nat (wpos cur - rpos cur)) server c conn cur st hw in
          match snd r with
          | Returned _ =>
              let cur := fst (fst (fst r)) in
              let st := snd (fst (fst r)) in
              let hw := snd (fst r) in
              if is_EOF err then
                (* Connection is closed *)
                (cur, st, hw, Returned tt)
              else if negb (is_nil err) then
                (cur, emit (EvLog (connection_warn err)) st, hw, Returned tt)
              else
                match compact cur with
                | Panic p => (cur, st, hw, Panicking p)
                | Ok cur => stream_loop fuel' server c conn chs cur st hw
                end
          | _ => r
          end
      end
  end.

(** [Server.HandleStream] reconstructs frames from a stream and passes them
    to the message handler. *)
Definition HandleStream (server : Server) (c : Context) (conn : StreamTester)
           (st : state) (hw : hworld) : state * hworld * exit unit :=
  let me := mkCloser (ConnOf (st_id conn)) (st_Close conn) in
  let c := match ConnContext server with
           | Some f => f c (ConnOf (st_id conn))
           | None => c
           end in
  (* Get a 4k buffer for reassembling frames *)
  match GetBuffer (runtime st) (buffers st) 4096 4096 with
  | Panic p => (snd (Close me st), hw, Panicking p)
  | Ok (b, a, p) =>
      let r := stream_loop (S (budget (chunks conn))) server c conn (chunks conn)
                           (mkCursor b 0 0) (with_memory a p st) hw in
      let st := snd (fst (fst r)) in
      (* defer FreeBuffer(buf); defer conn.Close() *)
      let st := with_memory (runtime st) (FreeBuffer (buffers st) b) st in
      (snd (Close me st), snd (fst r), snd r)
  end.

(** The loop of [ServeStream]: [listener.Accept()] is the match on the
    backlog.  Where [server.Go] starts the goroutine of a connection the
    trace has an [EvGo]; the goroutine then runs here to its end before the
    next accept: one of the schedules Go allows. *)
Fixpoint accept_loop (server : Server) (c : Context) (listener : Listener)
         (conns : list StreamTester) (st : state) (hw : hworld)
  : state * hworld * exit error :=
  let st := emit (EvBlock (ListenerOf (l_id listener))) st in
  match conns with
  | [] => (st, hw, Returned net_ErrClosed)
  | conn :: rest =>
      (* server.Go(func() { server.HandleStream(ctx, conn) }) *)
      let st := emit (EvGo (GoHandleStream c (ConnOf (st_id conn)))) (Add 1 st) in
      let r := HandleStream server c conn st hw in
      match snd r with
      | Returned _ => accept_loop server c listener rest (Add (-1) (fst (fst r))) (snd (fst r))
      | Panicking p => (fst (fst r), snd (fst r), Panicking p)
      | OutOfFuel => (fst (fst r), snd (fst r), OutOfFuel)
      end
  end.

(** [Server.ServeStream] handles DNS messages from a Listener. *)
Definition ServeStream (server : Server) (listener : Listener) (st : state) (hw : hworld)
  : state * hworld * exit error :=
  let me := mkCloser (ListenerOf (l_id listener)) (l_Close listener) in
  let st := AddCloser me (Add 1 st) in
  let cx := Context_of st in
  let c := match BaseContext server with
           | Some f => f (fst cx) (l_Addr listener)
           | None => fst cx
           end in
  let r := accept_loop server c listener (backlog listener) (snd cx) hw in
  (* defer listener.Close(); defer server.Done() *)
  (Add (-1) (snd (Close me (fst (fst r)))), snd (fst r), snd r).

End Engine.

Arguments ServeDNS {H} s _ _ _.
Arguments BaseContext {H} s.
Arguments ConnContext {H} s.
Arguments mkServer {H} _ _ _.
Arguments Handle Start {H} server c buf wr req hw.
Arguments frames Start {H} fuel server c conn cur st hw.
Arguments stream_loop Start {H} fuel server c conn chs cur st hw.
Arguments HandleStream Start {H} server c conn st hw.
Arguments accept_loop Start {H} server c listener conns st hw.
Arguments ServeStream Start {H} server listener st hw.
Arguments Serve_loop Start {H} server c conn dgs st hw.
Arguments Serve Start {H} server conn st hw.
Arguments recovering {H} body.

(* ================================================================== *)
(** ** Observations on a trace *)

(** The calls of [Handle] in a trace, in order. *)
Fixpoint dispatches (tr : list event) : list dispatch :=
  match tr with
  | [] => []
  | EvHandle d :: tr' => d :: dispatches tr'
  | _ :: tr' => dispatches tr'
  end.

(** The goroutines started with [server.Go] in a trace, in order. *)
Fixpoint started (tr : list event) : list goroutine :=
  match tr with
  | [] => []
  | EvGo g :: tr' => g :: started tr'
  | _ :: tr' => started tr'
  end.

(** The endpoints registered with [AddCloser] in a trace. *)
Fixpoint registered (tr : list event) : list endpoint :=
  match tr with
  | [] => []
  | EvAddCloser e :: tr' => e :: registered tr'
  | _ :: tr' => registered tr'
  end.

(** The endpoints some loop has called a blocking read or accept on. *)
Fixpoint blocked_on (tr : list event) : list endpoint :=
  match tr with
  | [] => []
  | EvBlock e :: tr' => e :: blocked_on tr'
  | _ :: tr' => blocked_on tr'
  end.

(** The byte sequences written to connections, in order. *)
Fixpoint written (tr : list event) : list (list byte) :=
  match tr with
  | [] => []
  | EvWrite _ f :: tr' => f :: written tr'
  | EvWriteTo _ _ f :: tr' => f :: written tr'
  | _ :: tr' => written tr'
  end.

(** What the reassembly loop of a connection may add to the trace. *)
Definition stream_event (conn : StreamTester) (ev : event) : Prop :=
  match ev with
  | EvBlock e => e = ConnOf (st_id conn)
  | EvClose e => e = ConnOf (st_id conn)
  | EvLog _ => True
  | EvHandle d =>
      d_writer d = StreamWriter (ConnOf (st_id conn)) /\
      LocalAddr (d_request d) = st_RemoteAddr conn /\
      RemoteAddr (d_request d) = st_RemoteAddr conn
  | _ => False
  end.

(** [st'] is [st] after some steps of the reassembly loop of [conn]: the
    trace has grown by events of that loop, the closers are the same. *)
Definition extends (conn : StreamTester) (st st' : state) : Prop :=
  exists evs,
    trace st' = trace st ++ evs /\
    Forall (stream_event conn) evs /\
    entries st' = entries st.

(** The addresses a request was given are those of the peer, both. *)
Definition peer_on_both_sides (conn : StreamTester) (d : dispatch) : Prop :=
  LocalAddr (d_request d) = st_RemoteAddr conn /\
  RemoteAddr (d_request d) = st_RemoteAddr conn.

(** The call of [Handle] the datagram loop makes for the datagram [d]: the
    first 4096 bytes of it, a writer bound to its sender. *)
Definition datagram_dispatch (c : Context) (conn : DatagramTester) (d : Datagram)
  : dispatch :=
  mkDispatch c (firstn 4096 (dg_buf d))
             (PacketWriter (PacketConnOf (dt_id conn)) (dg_from d))
             (mkRequest zero_Header [] (dt_LocalAddr conn) (dg_from d) c).

(** The call of [Handle] the reassembly loop makes for a frame with the
    body [body]. *)
Definition stream_dispatch (c : Context) (conn : StreamTester) (body : list byte)
  : dispatch :=
  mkDispatch c body (StreamWriter (ConnOf (st_id conn)))
             (mkRequest zero_Header [] (st_RemoteAddr conn) (st_RemoteAddr conn) c).

(** What a call of [Handle] makes of the handler's world. *)
Definition run_dispatch {H : Type} (Start : list byte -> Header + error)
           (server : Server H) (hw : hworld H) (d : dispatch) : hworld H :=
  fst (Handle Start server (d_ctx d) (d_buf d) (d_writer d) (d_request d) hw).

(** The context [Serve] and [ServeStream] work in: the server's base
    context, through the [BaseContext] hook when there is one. *)
Definition loop_context {H : Type} (server : Server H) (addr : option Addr)
           (st : state) : Context :=
  match BaseContext server with
  | Some f => f (fst (Context_of st)) addr
  | None => fst (Context_of st)
  end.

(** The context [HandleStream] works in: the one it is given, through the
    [ConnContext] hook when there is one. *)
Definition conn_context {H : Type} (server : Server H) (c : Context)
           (conn : StreamTester) : Context :=
  match ConnContext server with
  | Some f => f c (ConnOf (st_id conn))
  | None => c
  end.

(** Two states with the same closers, task counter, base context,
    cancellation and closed endpoints. *)
Definition same_lifecycle (st st' : state) : Prop :=
  entries st' = entries st /\
  tasks st' = tasks st /\
  base st' = base st /\
  canceled st' = canceled st /\
  closed st' = closed st.

(** The bytes of a cursor that have been read from the connection and not
    yet been consumed as a frame: [buf[rpos:wpos]]. *)
Definition unread (cur : cursor) : list byte :=
  firstn (Z.to_nat (wpos cur - rpos cur))
         (skipn (Z.to_nat (rpos cur)) (store (buf cur))).

(** What the 16-bit header [b0 b1] says, as a number. *)
Definition be16 (b0 b1 : byte) : Z := 256 * byte_to_Z b0 + byte_to_Z b1.

(* ================================================================== *)
(** ** The test fixtures *)

(** A runtime that allocates exactly what is asked for, refuses only what
    every runtime refuses, and hands out the buffer that was put into the
    pool last. *)
Definition thrifty : allocator :=
  mkAlloc 0 (fun _ _ => 0%nat) (fun _ _ => false)
          (fun p => match p with [] => None | _ :: _ => Some 0%nat end).

(** A runtime with heap addresses of 40 bits (iOS on arm64): it refuses
    more than 2^40 bytes. *)
Definition ios_arm64 : allocator :=
  mkAlloc 0 (fun _ _ => 0%nat) (fun c n => 1099511627776 <? c + n)
          (pick thrifty).

(** A server that has not been used, in a process with an empty pool. *)
Definition boot : state := mkState [] 0 None false [] [] thrifty [].

(** A buffer as the pool makes it: [make([]byte, 4096)]. *)
Definition fresh : slice := fst (make thrifty 4096).

(** The addresses of [StreamTester] in [server_test.go]. *)
Definition peer_addr : option Addr := Some (TCPAddr [1; 2; 3; 4] 4242).
Definition host_addr : option Addr := Some (TCPAddr [10; 0; 1; 1] 53).

Definition stream_of (chs : list (list byte)) : StreamTester :=
  mkStreamTester 7 chs host_addr peer_addr [].

(** [GenerateQuery(id)] without questions: the 12 bytes of a header. *)
Definition GenerateQuery (id : Z) : list byte :=
  byte_of_Z (Z.shiftr id 8) :: byte_of_Z id :: repeat x00 10.

(** A frame as [GenerateFrame] makes it: the length header, then the body. *)
Definition frame_of (body : list byte) : list byte :=
  let n := uint16 (Z.of_nat (length body)) in
  byte_of_Z (Z.shiftr n 8) :: byte_of_Z n :: body.

(** A stand-in for the codec's [Start]: it wants the 12 bytes of a header
    and reads the transaction id. *)
Definition Start_id (m : list byte) : Header + error :=
  match m with
  | b0 :: b1 :: rest =>
      if Nat.leb 10 (length rest)
      then inl (mkHeader (be16 b0 b1) false 0 false false false false false false 0)
      else inr [5%nat]
  | _ => inr [5%nat]
  end.

(** A stand-in for the codec's header encoding: 12 bytes, the id first. *)
Definition pack_id (h : Header) : list byte := GenerateQuery (ID h).

(** A handler that keeps the ids it is called with, as the one of
    [TestStream] checks them. *)
Definition recorder : Server (list Z) :=
  mkServer (fun _ req seen => (seen ++ [ID (ReqHeader req)], Ok tt)) None None.

(** A handler that panics on every message. *)
Definition faulty : Server unit :=
  mkServer (fun _ _ u => (u, Panic (PanicValue 0))) None None.

(** A handler that does nothing, behind a parser that rejects everything. *)
Definition idle : Server unit :=
  mkServer (fun _ _ u => (u, Ok tt)) None None.
Definition Start_never (m : list byte) : Header + error := inr [5%nat].

(** The same hooks around another handler. *)
Definition with_handler {H H' : Type} (server : Server H)
           (f : ResponseWriter -> Request -> H' -> H' * result unit) : Server H' :=
  mkServer f (BaseContext server) (ConnContext server).

(** Two frames, each a bare header, arriving in one read. *)
Definition two_in_one : list (list byte) :=
  [frame_of (GenerateQuery 42) ++ frame_of (GenerateQuery 43)].

(** The query for the NS records of the root, id 42: a header with one
    question, the root name, type NS, class IN.  17 bytes. *)
Definition root_query : list byte :=
  [x00; x2a; x00; x00; x00; x01; x00; x00; x00; x00; x00; x00;
   x00; x00; x02; x00; x01].

(** Its frame, 19 bytes, cut after byte 18. *)
Definition frame19 : list byte := frame_of root_query.
Definition cut_at_18 : list (list byte) := [firstn 18 frame19; skipn 18 frame19].

(** A frame with a body of 4095 bytes: 4097 bytes on the wire. *)
Definition frame4097 : list byte := frame_of (GenerateQuery 42 ++ repeat x01 4083).

(** The cursor [HandleStream] starts from in a fresh process. *)
Definition cursor0 : cursor := mkCursor fresh 0 0.

(** The server of a fresh process once [HandleStream] has taken its
    buffer from the pool and called [Read] for the first time. *)
Definition reading : state :=
  emit (EvBlock (ConnOf 7)) (with_memory (allocated thrifty) [] boot).

(** The cursor after a first read of 18 bytes of [frame19]. *)
Definition cursor18 : cursor :=
  mkCursor (mkSlice 0 (firstn 18 frame19 ++ repeat x00 4078) 4096) 18 0.

(** The cursor after a first read that fills the buffer from [frame4097]. *)
Definition cursor4096 : cursor :=
  mkCursor (mkSlice 0 (firstn 4096 frame4097) 4096) 4096 0.

(** The frames of [TestStream], with 85 bytes in place of the 5 questions,
    cut into the chunks of the test. *)
Definition test_frame1 : list byte := frame_of (GenerateQuery 42).
Definition test_frame2 : list byte := frame_of (GenerateQuery 1234 ++ repeat x01 85).
Definition test_frame3 : list byte := frame_of (GenerateQuery 5678 ++ repeat x01 17).
Definition TestStream_chunks : list (list byte) :=
  [firstn 2 test_frame1; skipn 2 test_frame1; [];
   firstn 1 test_frame2; firstn 13 (skipn 1 test_frame2);
   firstn 22 (skipn 14 test_frame2); []; firstn 28 (skipn 36 test_frame2);
   skipn 64 test_frame2 ++ firstn 8 test_frame3; skipn 8 test_frame3].

(** A listener that hands out one connection, which sends one frame. *)
Definition one_conn_listener : Listener :=
  mkListener 3 [stream_of [test_frame1]] host_addr [].

(** A packet connection that receives one datagram, as in [TestDatagram]. *)
Definition one_datagram : DatagramTester :=
  mkDatagramTester 5 [mkDatagram (Some (UDPAddr [1; 2; 3; 4] 5367)) (GenerateQuery 42)]
                   host_addr [].

(** Closers as [Shutdown] may find them: the second and the third fail. *)
Definition three_closers : list closer :=
  [mkCloser (PacketConnOf 1) []; mkCloser (ListenerOf 2) [21%nat];
   mkCloser (ConnOf 3) [22%nat]].

(* ================================================================== *)
(** * Properties *)

(** ** Arithmetic of the length header *)

Lemma byte_to_Z_range (b : byte) : 0 <= byte_to_Z b < 256.
Proof.
  unfold byte_to_Z. pose proof (Byte.to_N_bounded b). lia.
Qed.

Lemma byte_to_of_Z (v : Z) : byte_to_Z (byte_of_Z v) = v mod 256.
Proof.
  unfold byte_to_Z, byte_of_Z.
  assert (Hr : 0 <= v mod 256 < 256) by (apply Z.mod_pos_bound; lia).
  destruct (Byte.of_N (Z.to_N (v mod 256))) as [b|] eqn:E.
  - apply Byte.to_of_N in E. rewrite E. lia.
  - apply Byte.of_N_None_iff in E. lia.
Qed.

Lemma lor_shiftl_8 (lo hi : Z) :
  0 <= lo < 256 -> 0 <= hi -> Z.lor lo (Z.shiftl hi 8) = 256 * hi + lo.
Proof.
  intros Hlo Hhi.
  rewrite Z.shiftl_mul_pow2 by lia.
  change (2 ^ 8) with 256.
  assert (Hland : Z.land lo (hi * 256) = 0).
  { apply Z.bits_inj'. intros n Hn.
    rewrite Z.land_spec, Z.bits_0.
    destruct (Z.ltb_spec n 8) as [Hlt|Hge].
    - replace (hi * 256) with (hi * 2 ^ 8) by reflexivity.
      rewrite Z.mul_pow2_bits_low by lia. apply andb_false_r.
    - destruct (Z.eqb_spec lo 0) as [->|Hnz].
      + rewrite Z.bits_0. reflexivity.
      + rewrite (Z.bits_above_log2 lo n); [reflexivity | lia |].
        apply Z.log2_lt_pow2; [lia|].
        apply Z.lt_le_trans with (2 ^ 8); [simpl; lia|].
        apply Z.pow_le_mono_r; lia. }
  rewrite <- Z.lxor_lor by exact Hland.
  rewrite <- Z.add_nocarry_lxor by exact Hland.
  lia.
Qed.

Lemma DecodeLength_be16 (b0 b1 : byte) (rest : list byte) :
  DecodeLength (b0 :: b1 :: rest) = Ok (be16 b0 b1).
Proof.
  unfold DecodeLength, be16.
  rewrite lor_shiftl_8.
  - reflexivity.
  - apply byte_to_Z_range.
  - apply byte_to_Z_range.
Qed.

Lemma be16_range (b0 b1 : byte) : 0 <= be16 b0 b1 < 65536.
Proof.
  unfold be16.
  pose proof (byte_to_Z_range b0). pose proof (byte_to_Z_range b1). lia.
Qed.

Lemma be16_encode (v : Z) :
  be16 (byte_of_Z (Z.shiftr v 8)) (byte_of_Z v) = v mod 65536.
Proof.
  unfold be16. rewrite !byte_to_of_Z.
  rewrite Z.shiftr_div_pow2 by lia. change (2 ^ 8) with 256.
  rewrite (Z.add_comm (256 * _)).
  change 65536 with (256 * 256).
  rewrite Z.rem_mul_r by lia. reflexivity.
Qed.

(** ** The buffer pool *)

Lemma upto_ok (s : slice) (hi : Z) :
  0 <= hi <= cap s -> upto s hi = Ok (mkSlice (ptr s) (store s) hi).
Proof.
  intros Hhi. unfold upto.
  destruct (Z.leb_spec 0 hi); [|lia].
  destruct (Z.leb_spec hi (cap s)); [|lia].
  reflexivity.
Qed.

Lemma upto_panics (s : slice) (hi : Z) :
  hi < 0 \/ cap s < hi -> upto s hi = Panic SliceBoundsOutOfRange.
Proof.
  intros Hhi. unfold upto.
  destruct (Z.leb_spec 0 hi); destruct (Z.leb_spec hi (cap s)); simpl;
    try reflexivity; lia.
Qed.

(** [append] on a full slice moves it to a new array. *)
Lemma append_full (a : allocator) (b : slice) (n : Z) :
  0 < n ->
  append a (mkSlice (ptr b) (store b) (cap b)) (repeat x00 (Z.to_nat n))
  = (mkSlice (next_ptr a)
             (store b ++ repeat x00 (Z.to_nat n) ++ repeat x00 (slack a (cap b) n))
             (cap b + n),
     allocated a).
Proof.
  intros Hn. unfold append, bytes. cbn [len store ptr].
  rewrite repeat_length.
  replace (cap (mkSlice (ptr b) (store b) (cap b))) with (cap b) by reflexivity.
  destruct (Z.leb_spec (cap b + Z.of_nat (Z.to_nat n)) (cap b)); [lia|].
  unfold cap at 1. rewrite Nat2Z.id, firstn_all.
  rewrite Z2Nat.id by lia. reflexivity.
Qed.

Lemma cap_nonneg (b : slice) : 0 <= cap b.
Proof.
  unfold cap. lia.
Qed.

(** [GrowBuffer] when it does not have to grow: the same array. *)
Lemma GrowBuffer_fits (a : allocator) (b : slice) (capacity length : Z) :
  0 <= length <= capacity -> capacity <= cap b ->
  GrowBuffer a b capacity length = Ok (mkSlice (ptr b) (store b) length, a).
Proof.
  intros Hl Hc. unfold GrowBuffer.
  destruct (Z.gtb_spec length capacity); [lia|].
  destruct (Z.gtb_spec (capacity - cap b) 0); [lia|].
  simpl. rewrite upto_ok by lia. reflexivity.
Qed.

Lemma refused_small (a : allocator) (c n : Z) :
  c + n < 2147483648 -> refused a c n = false.
Proof.
  intros Hs. unfold refused.
  destruct (Z.leb_spec 2147483648 (c + n)); [lia | reflexivity].
Qed.

(** [GrowBuffer] when it has to grow and the runtime lets it: a new array
    behind the old content. *)
Lemma GrowBuffer_grows (a : allocator) (b : slice) (capacity length : Z) :
  0 <= length <= capacity -> cap b < capacity ->
  refused a 0 (capacity - cap b) = false ->
  refused a (cap b) (capacity - cap b) = false ->
  GrowBuffer a b capacity length =
    Ok (mkSlice (next_ptr a)
                (store b ++ repeat x00 (Z.to_nat (capacity - cap b)) ++
                 repeat x00 (slack a (cap b) (capacity - cap b)))
                length,
        allocated a).
Proof.
  intros Hl Hc Hmake Happend. unfold GrowBuffer.
  destruct (Z.gtb_spec length capacity); [lia|].
  destruct (Z.gtb_spec (capacity - cap b) 0); [|lia].
  rewrite upto_ok by (pose proof (cap_nonneg b); lia).
  unfold granted. cbn [bind]. rewrite Hmake. cbn [bind].
  replace (cap (mkSlice (ptr b) (store b) (cap b))) with (cap b) by reflexivity.
  rewrite Happend. cbn [bind].
  rewrite append_full by lia. cbn [bind fst snd].
  rewrite upto_ok.
  - reflexivity.
  - unfold cap. cbn [store]. rewrite !length_app, !repeat_length.
    unfold cap in Hc. lia.
Qed.

(** [GrowBuffer] when it has to grow and the runtime refuses. *)
Lemma GrowBuffer_refused (a : allocator) (b : slice) (capacity length : Z) :
  length <= capacity -> cap b < capacity ->
  refused a 0 (capacity - cap b) = true \/
  refused a (cap b) (capacity - cap b) = true ->
  exists p, GrowBuffer a b capacity length = Panic p.
Proof.
  intros Hl Hc Hno. unfold GrowBuffer.
  destruct (Z.gtb_spec length capacity); [lia|].
  destruct (Z.gtb_spec (capacity - cap b) 0); [|lia].
  rewrite upto_ok by (pose proof (cap_nonneg b); lia).
  unfold granted. cbn [bind].
  replace (cap (mkSlice (ptr b) (store b) (cap b))) with (cap b) by reflexivity.
  destruct (refused a 0 (capacity - cap b)); cbn [bind]; [eexists; reflexivity|].
  destruct (refused a (cap b) (capacity - cap b)); cbn [bind];
    [eexists; reflexivity|].
  destruct Hno; discriminate.
Qed.

Lemma GrowBuffer_too_long (a : allocator) (b : slice) (capacity length : Z) :
  length > capacity ->
  GrowBuffer a b capacity length = Panic LengthGreaterThanCapacity.
Proof.
  intros Hgt. unfold GrowBuffer.
  destruct (Z.gtb_spec length capacity); [reflexivity|lia].
Qed.

Lemma GrowBuffer_below_zero (a : allocator) (b : slice) (capacity length : Z) :
  length <= capacity -> length < 0 ->
  exists p, GrowBuffer a b capacity length = Panic p.
Proof.
  intros Hle Hneg. unfold GrowBuffer.
  destruct (Z.gtb_spec length capacity); [lia|].
  destruct (Z.gtb_spec (capacity - cap b) 0).
  - rewrite upto_ok by (pose proof (cap_nonneg b); lia).
    unfold granted. cbn [bind].
    destruct (refused a 0 (capacity - cap b)); cbn [bind]; [eexists; reflexivity|].
    destruct (refused a _ (capacity - cap b)); cbn [bind]; [eexists; reflexivity|].
    rewrite upto_panics by (left; exact Hneg). eexists. reflexivity.
  - cbn [bind]. rewrite upto_panics by (left; exact Hneg). eexists. reflexivity.
Qed.

(** The cases of a call of [GrowBuffer]. *)
Lemma GrowBuffer_cases (a : allocator) (b : slice) (capacity length : Z) :
  (exists p, GrowBuffer a b capacity length = Panic p) /\
  (length > capacity \/ length < 0 \/
   cap b < capacity /\
   (refused a 0 (capacity - cap b) = true \/
    refused a (cap b) (capacity - cap b) = true))
  \/
  0 <= length <= capacity /\ capacity <= cap b /\
  GrowBuffer a b capacity length = Ok (mkSlice (ptr b) (store b) length, a)
  \/
  0 <= length <= capacity /\ cap b < capacity /\
  refused a 0 (capacity - cap b) = false /\
  refused a (cap b) (capacity - cap b) = false /\
  GrowBuffer a b capacity length =
    Ok (mkSlice (next_ptr a)
                (store b ++ repeat x00 (Z.to_nat (capacity - cap b)) ++
                 repeat x00 (slack a (cap b) (capacity - cap b)))
                length,
        allocated a).
Proof.
  destruct (Z.gtb_spec length capacity) as [Hgt|Hle].
  { left. rewrite GrowBuffer_too_long by lia. split; [eexists; reflexivity|]. left. lia. }
  destruct (Z.ltb_spec length 0) as [Hneg|Hpos].
  { left. split; [apply GrowBuffer_below_zero; lia|]. right. left. exact Hneg. }
  destruct (Z.leb_spec capacity (cap b)) as [Hfit|Hgrow].
  { right. left. split; [lia|]. split; [exact Hfit|]. apply GrowBuffer_fits; lia. }
  destruct (refused a 0 (capacity - cap b)) eqn:Hmake.
  { left. split; [apply GrowBuffer_refused; auto|]. right. right. split; [lia|]. left. reflexivity. }
  destruct (refused a (cap b) (capacity - cap b)) eqn:Happend.
  { left. split; [apply GrowBuffer_refused; auto|]. right. right. split; [lia|]. right. reflexivity. }
  right. right. split; [lia|]. split; [exact Hgrow|].
  split; [reflexivity|]. split; [reflexivity|]. apply GrowBuffer_grows; auto; lia.
Qed.

(** What a call of [GrowBuffer] that returns says of its arguments. *)
Lemma GrowBuffer_len (a a' : allocator) (b b' : slice) (capacity length : Z) :
  GrowBuffer a b capacity length = Ok (b', a') ->
  0 <= length <= capacity /\ len b' = length.
Proof.
  intros Hg.
  destruct (GrowBuffer_cases a b capacity length)
    as [[[p Hp] _] | [(Hl & _ & Hfit) | (Hl & _ & _ & _ & Hgrow)]].
  - rewrite Hp in Hg. discriminate.
  - rewrite Hfit in Hg. injection Hg as <- _. simpl. lia.
  - rewrite Hgrow in Hg. injection Hg as <- _. simpl. lia.
Qed.

(** C10, as the code has it: [GrowBuffer] panics exactly when the requested
    length exceeds the requested capacity, or is negative, or the buffer
    has to grow and the runtime refuses the allocation ([make] or [append]
    panics: the request is beyond the runtime's limit).  Otherwise the
    buffer it returns has the requested length and at least the requested
    capacity, and the old array's content is at the front of its array; when
    the requested capacity is within the old one it is the old array itself
    and nothing is allocated. *)
Theorem GrowBuffer_spec (a : allocator) (b : slice) (capacity length : Z) :
  match GrowBuffer a b capacity length with
  | Panic _ =>
      length > capacity \/ length < 0 \/
      cap b < capacity /\
      (refused a 0 (capacity - cap b) = true \/
       refused a (cap b) (capacity - cap b) = true)
  | Ok (b', a') =>
      0 <= length <= capacity /\
      (cap b < capacity ->
       refused a 0 (capacity - cap b) = false /\
       refused a (cap b) (capacity - cap b) = false) /\
      len b' = length /\
      capacity <= cap b' /\
      firstn (Datatypes.length (store b)) (store b') = store b /\
      (if capacity <=? cap b
       then ptr b' = ptr b /\ store b' = store b /\ a' = a
       else ptr b' = next_ptr a /\ next_ptr a' = S (next_ptr a))
  end.
Proof.
  destruct (GrowBuffer_cases a b capacity length)
    as [[[p Hp] Hwhy] | [(Hl & Hfit & Hg) | (Hl & Hgrow & Hmake & Happend & Hg)]].
  - rewrite Hp. exact Hwhy.
  - rewrite Hg. cbn [len store ptr].
    split; [lia|]. split; [lia|]. split; [reflexivity|]. split; [exact Hfit|].
    split; [apply firstn_all|].
    destruct (Z.leb_spec capacity (cap b)); [|lia].
    repeat split.
  - rewrite Hg. cbn [len store ptr].
    split; [lia|]. split; [intros _; split; assumption|].
    split; [reflexivity|]. split.
    { unfold cap. cbn [store]. rewrite !length_app, !repeat_length.
      unfold cap in Hgrow. lia. }
    split.
    { rewrite firstn_app, Nat.sub_diag, firstn_all. cbn [firstn].
      apply app_nil_r. }
    destruct (Z.leb_spec capacity (cap b)); [lia|].
    split; reflexivity.
Qed.

(** C10, as the spec has it, fails, in two ways.  A negative length within
    the capacity makes [GrowBuffer] panic (on the final [buf[:length]]).
    And so does, with a length within the capacity, a capacity beyond what
    the runtime allocates: 2^62 bytes on any platform, 2^41 bytes where
    heap addresses have 40 bits; [make] panics. *)
Lemma GrowBuffer_panics_within_capacity :
  (GrowBuffer thrifty fresh 4096 (-1) = Panic SliceBoundsOutOfRange /\
   ~ (-1 > 4096)) /\
  (GrowBuffer thrifty fresh 4611686018427387904 0 = Panic MakesliceLenOutOfRange /\
   ~ (0 > 4611686018427387904)) /\
  (GrowBuffer ios_arm64 fresh 2199023255552 0 = Panic MakesliceLenOutOfRange /\
   ~ (0 > 2199023255552)).
Proof.
  split; [|split]; (split; [vm_compute; reflexivity | lia]).
Qed.

(** ** The dispatch guard *)

Lemma Handle_returns (Start : list byte -> Header + error) (H : Type)
      (server : Server H) (c : Context) (b : list byte)
      (wr : ResponseWriter) (req : Request) (hw : hworld H) :
  snd (Handle Start server c b wr req hw) = Ok tt.
Proof.
  unfold Handle, recovering.
  destruct (Start b) as [header|err]; simpl.
  - destruct (ServeDNS server wr _ (fst hw)) as [h [[]|p]]; reflexivity.
  - reflexivity.
Qed.

(** One turn of the inner loop, spelled out. *)
Lemma frames_step (Start : list byte -> Header + error) (H : Type)
      (fuel : nat) (server : Server H) (c : Context) (conn : StreamTester)
      (cur : cursor) (st : state) (hw : hworld H) :
  frames Start (S fuel) server c conn cur st hw =
  if wpos cur - rpos cur >=? 14 then
    match (b <- from (buf cur) (rpos cur) ;; DecodeLength b) with
    | Panic p => (cur, st, hw, Panicking p)
    | Ok size =>
        match GrowBuffer (runtime st) (buf cur) size size with
        | Panic p => (cur, st, hw, Panicking p)
        | Ok (grown, a) =>
            if size >? wpos cur - (rpos cur + 2)
            then (mkCursor grown (wpos cur) (rpos cur), with_runtime a st, hw, Returned tt)
            else
              match sub grown (rpos cur + 2) (rpos cur + 2 + size) with
              | Panic p =>
                  (mkCursor grown (wpos cur) (rpos cur + 2), with_runtime a st, hw,
                   Panicking p)
              | Ok payload =>
                  let wr := StreamWriter (ConnOf (st_id conn)) in
                  let req := mkRequest zero_Header []
                                       (st_RemoteAddr conn) (st_RemoteAddr conn) c in
                  let st' := emit (EvHandle (mkDispatch c payload wr req))
                                  (with_runtime a st) in
                  frames Start fuel server c conn
                         (mkCursor grown (wpos cur) (rpos cur + 2 + size)) st'
                         (fst (Handle Start server c payload wr req hw))
              end
        end
    end
  else (cur, st, hw, Returned tt).
Proof.
  simpl.
  destruct (wpos cur - rpos cur >=? 14); [|reflexivity].
  destruct (b <- from (buf cur) (rpos cur);; DecodeLength b) as [size|p]; [|reflexivity].
  destruct (GrowBuffer (runtime st) (buf cur) size size) as [[grown a]|p]; [|reflexivity].
  destruct (size >? wpos cur - (rpos cur + 2)); [reflexivity|].
  destruct (sub grown (rpos cur + 2) (rpos cur + 2 + size)) as [payload|p]; [|reflexivity].
  rewrite Handle_returns. reflexivity.
Qed.

Lemma frames_below (Start : list byte -> Header + error) (H : Type)
      (fuel : nat) (server : Server H) (c : Context) (conn : StreamTester)
      (cur : cursor) (st : state) (hw : hworld H) :
  wpos cur - rpos cur < 14 ->
  frames Start fuel server c conn cur st hw = (cur, st, hw, Returned tt).
Proof.
  intros Hlt.
  destruct fuel; simpl; destruct (Z.geb_spec (wpos cur - rpos cur) 14);
    try reflexivity; lia.
Qed.

(** What the engine keeps of a run of a loop: the cursor, the server's
    state and the way the loop ended, without the handler's world. *)
Lemma frames_any_handler (Start1 Start2 : list byte -> Header + error)
      (H1 H2 : Type) (s1 : Server H1) (s2 : Server H2)
      (c : Context) (conn : StreamTester) (fuel : nat) :
  forall (cur : cursor) (st : state) (hw1 : hworld H1) (hw2 : hworld H2),
    fst (fst (frames Start1 fuel s1 c conn cur st hw1)) =
    fst (fst (frames Start2 fuel s2 c conn cur st hw2)) /\
    snd (frames Start1 fuel s1 c conn cur st hw1) =
    snd (frames Start2 fuel s2 c conn cur st hw2).
Proof.
  induction fuel as [|fuel IH]; intros cur st hw1 hw2.
  - simpl. destruct (wpos cur - rpos cur >=? 14); split; reflexivity.
  - rewrite !frames_step.
    destruct (wpos cur - rpos cur >=? 14); [|split; reflexivity].
    destruct (b <- from (buf cur) (rpos cur);; DecodeLength b) as [size|p];
      [|split; reflexivity].
    destruct (GrowBuffer (runtime st) (buf cur) size size) as [[grown a]|p];
      [|split; reflexivity].
    destruct (size >? wpos cur - (rpos cur + 2)); [split; reflexivity|].
    destruct (sub grown (rpos cur + 2) (rpos cur + 2 + size)) as [payload|p];
      [|split; reflexivity].
    cbv zeta. apply IH.
Qed.

Lemma stream_loop_any_handler (Start1 Start2 : list byte -> Header + error)
      (H1 H2 : Type) (s1 : Server H1) (s2 : Server H2)
      (c : Context) (conn : StreamTester) (fuel : nat) :
  forall (chs : list (list byte)) (cur : cursor) (st : state)
         (hw1 : hworld H1) (hw2 : hworld H2),
    fst (fst (stream_loop Start1 fuel s1 c conn chs cur st hw1)) =
    fst (fst (stream_loop Start2 fuel s2 c conn chs cur st hw2)) /\
    snd (stream_loop Start1 fuel s1 c conn chs cur st hw1) =
    snd (stream_loop Start2 fuel s2 c conn chs cur st hw2).
Proof.
  induction fuel as [|fuel IH]; intros chs cur st hw1 hw2.
  - simpl. split; reflexivity.
  - simpl.
    destruct (read chs cur) as [[[cur1 err] chs1]|p]; [|split; reflexivity].
    pose proof (frames_any_handler Start1 Start2 H1 H2 s1 s2 c conn
                  (Z.to_nat (wpos cur1 - rpos cur1)) cur1
                  (emit (EvBlock (ConnOf (st_id conn))) st) hw1 hw2) as [Hst Hex].
    destruct (frames Start1 _ s1 c conn cur1 _ hw1) as [[[cA stA] hwA] eA].
    destruct (frames Start2 _ s2 c conn cur1 _ hw2) as [[[cB stB] hwB] eB].
    simpl in Hst, Hex. injection Hst as -> ->. subst eB.
    simpl.
    destruct eA as [[]|p|]; try (split; reflexivity).
    destruct (is_EOF err); [split; reflexivity|].
    destruct (negb (is_nil err)); [split; reflexivity|].
    destruct (compact cB) as [cur2|p]; [|split; reflexivity].
    apply IH.
Qed.

Lemma HandleStream_any_handler (Start1 Start2 : list byte -> Header + error)
      (H1 H2 : Type) (server : Server H1)
      (f : ResponseWriter -> Request -> H2 -> H2 * result unit)
      (c : Context) (conn : StreamTester) (st : state)
      (hw1 : hworld H1) (hw2 : hworld H2) :
  fst (fst (HandleStream Start1 server c conn st hw1)) =
  fst (fst (HandleStream Start2 (with_handler server f) c conn st hw2)) /\
  snd (HandleStream Start1 server c conn st hw1) =
  snd (HandleStream Start2 (with_handler server f) c conn st hw2).
Proof.
  unfold HandleStream.
  change (ConnContext (with_handler server f)) with (ConnContext server).
  destruct (GetBuffer (runtime st) (buffers st) 4096 4096) as [[[b a] p]|p];
    [|split; reflexivity].
  set (c' := match ConnContext server with
             | Some g => g c (ConnOf (st_id conn))
             | None => c
             end).
  pose proof (stream_loop_any_handler Start1 Start2 H1 H2 server
                (with_handler server f) c' conn (S (budget (chunks conn)))
                (chunks conn) (mkCursor b 0 0) (with_memory a p st) hw1 hw2)
    as [Hst Hex].
  destruct (stream_loop Start1 _ server c' conn _ _ _ hw1) as [[[cA stA] hwA] eA].
  destruct (stream_loop Start2 _ (with_handler server f) c' conn _ _ _ hw2)
    as [[[cB stB] hwB] eB].
  simpl in Hst, Hex. injection Hst as -> ->. subst eB.
  split; reflexivity.
Qed.

(** What [Handle] leaves in the log: a parse error, the value a handler
    panicked with, or nothing. *)
Lemma Handle_logs (Start : list byte -> Header + error) (H : Type)
      (server : Server H) (c : Context) (b : list byte)
      (wr : ResponseWriter) (req : Request) (hw : hworld H) :
  snd (fst (Handle Start server c b wr req hw)) =
  match Start b with
  | inr err => handler_parse err :: snd hw
  | inl header =>
      match snd (ServeDNS server wr
                   (mkRequest header b (LocalAddr req) (RemoteAddr req) (ctx req))
                   (fst hw)) with
      | Panic value => handler_panic value :: snd hw
      | Ok _ => snd hw
      end
  end.
Proof.
  unfold Handle, recovering.
  destruct (Start b) as [header|err]; simpl.
  - destruct (ServeDNS server wr _ (fst hw)) as [h [[]|p]]; reflexivity.
  - reflexivity.
Qed.

Lemma Serve_loop_any_handler (Start1 Start2 : list byte -> Header + error)
      (H1 H2 : Type) (s1 : Server H1) (s2 : Server H2)
      (c : Context) (conn : DatagramTester) (dgs : list Datagram) :
  forall (st : state) (hw1 : hworld H1) (hw2 : hworld H2),
    fst (fst (Serve_loop Start1 s1 c conn dgs st hw1)) =
    fst (fst (Serve_loop Start2 s2 c conn dgs st hw2)) /\
    snd (Serve_loop Start1 s1 c conn dgs st hw1) =
    snd (Serve_loop Start2 s2 c conn dgs st hw2).
Proof.
  induction dgs as [|d rest IH]; intros st hw1 hw2.
  - simpl.
    destruct (GetBuffer (runtime st) (buffers st) 4096 4096) as [[[b a] p]|p];
      split; reflexivity.
  - cbn [Serve_loop].
    destruct (GetBuffer (runtime st) (buffers st) 4096 4096) as [[[b a] p]|p];
      [|split; reflexivity].
    cbv zeta.
    destruct (sub (fst (copy b (dg_buf d))) 0 (snd (copy b (dg_buf d))))
      as [payload|q]; [|split; reflexivity].
    rewrite !Handle_returns. apply IH.
Qed.

Lemma Serve_any_handler (Start1 Start2 : list byte -> Header + error)
      (H1 H2 : Type) (server : Server H1)
      (f : ResponseWriter -> Request -> H2 -> H2 * result unit)
      (conn : DatagramTester) (st : state)
      (hw1 : hworld H1) (hw2 : hworld H2) :
  fst (fst (Serve Start1 server conn st hw1)) =
  fst (fst (Serve Start2 (with_handler server f) conn st hw2)) /\
  snd (Serve Start1 server conn st hw1) =
  snd (Serve Start2 (with_handler server f) conn st hw2).
Proof.
  unfold Serve.
  change (BaseContext (with_handler server f)) with (BaseContext server).
  cbv zeta.
  set (st0 := AddCloser _ _).
  set (c := match BaseContext server with
            | Some g => g (fst (Context_of st0)) (dt_LocalAddr conn)
            | None => fst (Context_of st0)
            end).
  destruct (Serve_loop_any_handler Start1 Start2 H1 H2 server (with_handler server f)
              c conn (datagrams conn) (snd (Context_of st0)) hw1 hw2) as [Hst Hex].
  cbn [fst snd]. rewrite Hst, Hex. split; reflexivity.
Qed.

Lemma accept_loop_any_handler (Start1 Start2 : list byte -> Header + error)
      (H1 H2 : Type) (server : Server H1)
      (f : ResponseWriter -> Request -> H2 -> H2 * result unit)
      (c : Context) (listener : Listener) (conns : list StreamTester) :
  forall (st : state) (hw1 : hworld H1) (hw2 : hworld H2),
    fst (fst (accept_loop Start1 server c listener conns st hw1)) =
    fst (fst (accept_loop Start2 (with_handler server f) c listener conns st hw2)) /\
    snd (accept_loop Start1 server c listener conns st hw1) =
    snd (accept_loop Start2 (with_handler server f) c listener conns st hw2).
Proof.
  induction conns as [|conn rest IH]; intros st hw1 hw2.
  - split; reflexivity.
  - cbn [accept_loop]. cbv zeta.
    destruct (HandleStream_any_handler Start1 Start2 H1 H2 server f c conn
                (emit (EvGo (GoHandleStream c (ConnOf (st_id conn))))
                      (Add 1 (emit (EvBlock (ListenerOf (l_id listener))) st))) hw1 hw2)
      as [Hst Hex].
    destruct (HandleStream Start1 server c conn _ hw1) as [[stA hwA] eA].
    destruct (HandleStream Start2 (with_handler server f) c conn _ hw2)
      as [[stB hwB] eB].
    cbn [fst snd] in *. subst stB eB.
    destruct eA as [[]|p|]; cbn [fst snd]; try (split; reflexivity).
    apply IH.
Qed.

Lemma ServeStream_any_handler (Start1 Start2 : list byte -> Header + error)
      (H1 H2 : Type) (server : Server H1)
      (f : ResponseWriter -> Request -> H2 -> H2 * result unit)
      (listener : Listener) (st : state)
      (hw1 : hworld H1) (hw2 : hworld H2) :
  fst (fst (ServeStream Start1 server listener st hw1)) =
  fst (fst (ServeStream Start2 (with_handler server f) listener st hw2)) /\
  snd (ServeStream Start1 server listener st hw1) =
  snd (ServeStream Start2 (with_handler server f) listener st hw2).
Proof.
  unfold ServeStream.
  change (BaseContext (with_handler server f)) with (BaseContext server).
  cbv zeta.
  set (st0 := AddCloser _ _).
  set (c := match BaseContext server with
            | Some g => g (fst (Context_of st0)) (l_Addr listener)
            | None => fst (Context_of st0)
            end).
  destruct (accept_loop_any_handler Start1 Start2 H1 H2 server f
              c listener (backlog listener) (snd (Context_of st0)) hw1 hw2)
    as [Hst Hex].
  cbn [fst snd]. rewrite Hst, Hex. split; reflexivity.
Qed.

(** C6: the guard of [Handle] lets no panic out.  Whatever the parser and
    the handler do, [Handle] returns, with the panic or the parse error in
    the log; and what the reassembly loop of a connection, the accept loop
    with the connections it serves and the datagram loop do (the messages
    they dispatch, what they read, how they end) is the same whatever the
    handler behind the guard does, be it one that panics on every message. *)
Theorem Handle_never_panics :
  (forall (Start : list byte -> Header + error) (H : Type) (server : Server H)
          (c : Context) (b : list byte) (wr : ResponseWriter) (req : Request)
          (hw : hworld H),
      snd (Handle Start server c b wr req hw) = Ok tt /\
      snd (fst (Handle Start server c b wr req hw)) =
      match Start b with
      | inr err => handler_parse err :: snd hw
      | inl header =>
          match snd (ServeDNS server wr
                       (mkRequest header b (LocalAddr req) (RemoteAddr req) (ctx req))
                       (fst hw)) with
          | Panic value => handler_panic value :: snd hw
          | Ok _ => snd hw
          end
      end) /\
  (forall (Start Start' : list byte -> Header + error) (H H' : Type)
          (server : Server H)
          (f : ResponseWriter -> Request -> H' -> H' * result unit)
          (c : Context) (conn : StreamTester) (st : state)
          (hw : hworld H) (hw' : hworld H'),
      trace (fst (fst (HandleStream Start server c conn st hw))) =
      trace (fst (fst (HandleStream Start' (with_handler server f) c conn st hw'))) /\
      snd (HandleStream Start server c conn st hw) =
      snd (HandleStream Start' (with_handler server f) c conn st hw')) /\
  (forall (Start Start' : list byte -> Header + error) (H H' : Type)
          (server : Server H)
          (f : ResponseWriter -> Request -> H' -> H' * result unit)
          (listener : Listener) (st : state)
          (hw : hworld H) (hw' : hworld H'),
      trace (fst (fst (ServeStream Start server listener st hw))) =
      trace (fst (fst (ServeStream Start' (with_handler server f) listener st hw'))) /\
      snd (ServeStream Start server listener st hw) =
      snd (ServeStream Start' (with_handler server f) listener st hw')) /\
  (forall (Start Start' : list byte -> Header + error) (H H' : Type)
          (server : Server H)
          (f : ResponseWriter -> Request -> H' -> H' * result unit)
          (conn : DatagramTester) (st : state)
          (hw : hworld H) (hw' : hworld H'),
      trace (fst (fst (Serve Start server conn st hw))) =
      trace (fst (fst (Serve Start' (with_handler server f) conn st hw'))) /\
      snd (Serve Start server conn st hw) =
      snd (Serve Start' (with_handler server f) conn st hw')).
Proof.
  split; [|split; [|split]].
  - intros. split; [apply Handle_returns | apply Handle_logs].
  - intros Start Start' H H' server f c conn st hw hw'.
    destruct (HandleStream_any_handler Start Start' H H' server f c conn st hw hw')
      as [Hst Hex].
    rewrite Hst. split; [reflexivity | exact Hex].
  - intros Start Start' H H' server f listener st hw hw'.
    destruct (ServeStream_any_handler Start Start' H H' server f listener st hw hw')
      as [Hst Hex].
    rewrite Hst. split; [reflexivity | exact Hex].
  - intros Start Start' H H' server f conn st hw hw'.
    destruct (Serve_any_handler Start Start' H H' server f conn st hw hw')
      as [Hst Hex].
    rewrite Hst. split; [reflexivity | exact Hex].
Qed.

(** ** The reassembly loop on the streams of the tests *)

(** The model runs [TestStream] as the test expects: three dispatches, the
    ids in order, a normal return. *)
Lemma TestStream_passes :
  let r := HandleStream Start_id recorder Background
                        (stream_of TestStream_chunks) boot ([], []) in
  concat TestStream_chunks = test_frame1 ++ test_frame2 ++ test_frame3 /\
  fst (snd (fst r)) = [42; 1234; 5678] /\
  map d_buf (dispatches (trace (fst (fst r)))) =
    [skipn 2 test_frame1; skipn 2 test_frame2; skipn 2 test_frame3] /\
  snd r = Returned tt.
Proof.
  vm_compute. repeat split; reflexivity.
Qed.

(** The same stream behind a handler that panics on every message: the
    same three dispatches, three panics in the log, a normal return. *)
Lemma TestStream_with_panicking_handler :
  let r := HandleStream Start_id faulty Background
                        (stream_of TestStream_chunks) boot (tt, []) in
  map d_buf (dispatches (trace (fst (fst r)))) =
    [skipn 2 test_frame1; skipn 2 test_frame2; skipn 2 test_frame3] /\
  snd (snd (fst r)) =
    [handler_panic (PanicValue 0); handler_panic (PanicValue 0);
     handler_panic (PanicValue 0)] /\
  snd r = Returned tt.
Proof.
  vm_compute. repeat split; reflexivity.
Qed.

(** When the inner loop has dispatched a frame and at least 14 unread bytes
    are left behind it, its next turn panics: [GrowBuffer(buf, size, size)]
    has cut the buffer's length down to [size], and [buf[rpos:]] is taken
    with [rpos = size + 2] or more. *)
Lemma frames_second_turn_panics (Start : list byte -> Header + error) (H : Type)
      (fuel : nat) (server : Server H) (c : Context) (conn : StreamTester)
      (cur : cursor) (st : state) (hw : hworld H)
      (b payload : list byte) (size : Z) (grown : slice) (a : allocator) :
  0 <= rpos cur ->
  wpos cur - rpos cur >= 14 ->
  from (buf cur) (rpos cur) = Ok b ->
  DecodeLength b = Ok size ->
  GrowBuffer (runtime st) (buf cur) size size = Ok (grown, a) ->
  sub grown (rpos cur + 2) (rpos cur + 2 + size) = Ok payload ->
  wpos cur - (rpos cur + 2 + size) >= 14 ->
  snd (frames Start (S (S fuel)) server c conn cur st hw)
  = Panicking SliceBoundsOutOfRange.
Proof.
  intros Hr Hw Hb Hsize Hgrow Hsub Hmore.
  assert (Hlen : len grown = size) by (apply (GrowBuffer_len _ _ _ _ _ _ Hgrow)).
  rewrite frames_step.
  destruct (Z.geb_spec (wpos cur - rpos cur) 14); [|lia].
  rewrite Hb. unfold bind at 1. rewrite Hsize, Hgrow.
  destruct (Z.gtb_spec size (wpos cur - (rpos cur + 2))); [lia|].
  rewrite Hsub. cbv zeta.
  rewrite frames_step. cbn [wpos rpos buf].
  destruct (Z.geb_spec (wpos cur - (rpos cur + 2 + size)) 14); [|lia].
  unfold from, sub. rewrite Hlen.
  destruct (Z.leb_spec (rpos cur + 2 + size) size); [lia|].
  rewrite andb_false_r. reflexivity.
Qed.

(** C1 fails on the code: two well-formed frames delivered by one read.
    Whatever the handler, the first frame is dispatched and the loop then
    panics on [buf[rpos:]]; the second frame is never dispatched. *)
Theorem two_frames_in_one_read (Start : list byte -> Header + error) (H : Type)
        (server : Server H) (c : Context) (hw : hworld H) :
  snd (HandleStream Start server c (stream_of two_in_one) boot hw)
  = Panicking SliceBoundsOutOfRange /\
  map d_buf (dispatches (trace (fst (fst
      (HandleStream Start server c (stream_of two_in_one) boot hw)))))
  = [GenerateQuery 42].
Proof.
  destruct (HandleStream_any_handler Start Start_never H unit server (ServeDNS idle)
              c (stream_of two_in_one) boot hw (tt, [])) as [Hst Hex].
  rewrite Hst, Hex. vm_compute. split; reflexivity.
Qed.

(** C2 fails on the code: a frame with a body of 4095 bytes in a buffer of
    4096.  The first read fills the buffer; the header at the read position
    says 4095; after the growth step the capacity is still 4096, short of
    read position + 2 + 4095.  The frame arrives whole, and the loop returns
    at the end of the stream without having dispatched it. *)
Theorem growth_leaves_frame_unfit (Start : list byte -> Header + error) (H : Type)
        (server : Server H) (c : Context) (hw : hworld H) :
  GetBuffer (runtime boot) (buffers boot) 4096 4096
  = Ok (buf cursor0, runtime reading, buffers reading) /\
  read [frame4097] cursor0 = Ok (cursor4096, [], [skipn 4096 frame4097]) /\
  bind (from (buf cursor4096) (rpos cursor4096)) DecodeLength = Ok 4095 /\
  (let after := fst (fst (fst
         (frames Start 4096 server c (stream_of [frame4097]) cursor4096 reading hw))) in
   cap (buf after) = 4096 /\ cap (buf after) < rpos after + 2 + 4095) /\
  Datatypes.length frame4097 = 4097%nat /\
  dispatches (trace (fst (fst
      (HandleStream Start server c (stream_of [frame4097]) boot hw)))) = [] /\
  snd (HandleStream Start server c (stream_of [frame4097]) boot hw) = Returned tt.
Proof.
  destruct (HandleStream_any_handler Start Start_never H unit server (ServeDNS idle)
              c (stream_of [frame4097]) boot hw (tt, [])) as [Hst Hex].
  destruct (frames_any_handler Start Start_never H unit server idle c
              (stream_of [frame4097]) 4096 cursor4096 reading hw (tt, [])) as [Hfr _].
  cbv zeta. rewrite Hst, Hex, Hfr.
  split; [vm_compute; reflexivity|].
  split; [vm_compute; reflexivity|].
  split; [vm_compute; reflexivity|].
  split; [split; vm_compute; reflexivity|].
  split; [vm_compute; reflexivity|].
  split; vm_compute; reflexivity.
Qed.

(** C3 fails on the code: the first 18 bytes of a frame of 19.  After the
    growth step the buffer's length is 17, below the write position 18; the
    shift to the front then copies 17 of the 18 unprocessed bytes, so the
    write position falls to 17 and the last byte received is no longer
    among the unprocessed ones.  The rest of the frame arrives, and the loop
    returns at the end of the stream without a dispatch. *)
Theorem cursor_invariant_broken (Start : list byte -> Header + error) (H : Type)
        (server : Server H) (c : Context) (hw : hworld H) :
  GetBuffer (runtime boot) (buffers boot) 4096 4096
  = Ok (buf cursor0, runtime reading, buffers reading) /\
  read cut_at_18 cursor0 = Ok (cursor18, [], [skipn 18 frame19]) /\
  (let after := fst (fst (fst
         (frames Start 18 server c (stream_of cut_at_18) cursor18 reading hw))) in
   wpos after = 18 /\ len (buf after) = 17 /\
   sub (buf after) (rpos after) (wpos after) = Ok (firstn 18 frame19) /\
   match compact after with
   | Ok shifted =>
       rpos shifted = 0 /\ wpos shifted = 17 /\
       sub (buf shifted) (rpos shifted) (wpos shifted) = Ok (firstn 17 frame19)
   | Panic _ => False
   end) /\
  concat cut_at_18 = frame19 /\
  dispatches (trace (fst (fst
      (HandleStream Start server c (stream_of cut_at_18) boot hw)))) = [] /\
  snd (HandleStream Start server c (stream_of cut_at_18) boot hw) = Returned tt.
Proof.
  destruct (HandleStream_any_handler Start Start_never H unit server (ServeDNS idle)
              c (stream_of cut_at_18) boot hw (tt, [])) as [Hst Hex].
  destruct (frames_any_handler Start Start_never H unit server idle c
              (stream_of cut_at_18) 18 cursor18 reading hw (tt, [])) as [Hfr _].
  cbv zeta. rewrite Hst, Hex, Hfr.
  split; [vm_compute; reflexivity|].
  split; [vm_compute; reflexivity|].
  split; [vm_compute; repeat split; reflexivity|].
  split; [vm_compute; reflexivity|].
  split; vm_compute; reflexivity.
Qed.

(** ** Shutdown *)

Lemma CloseAll_from_result (cs : list closer) :
  forall (err : error) (st : state),
    fst (CloseAll_from cs err st) = err ++ concat (map close_result cs) /\
    closed (snd (CloseAll_from cs err st)) = rev (map closes cs) ++ closed st /\
    trace (snd (CloseAll_from cs err st))
    = trace st ++ map (fun c => EvClose (closes c)) cs /\
    entries (snd (CloseAll_from cs err st)) = entries st /\
    base (snd (CloseAll_from cs err st)) = base st.
Proof.
  induction cs as [|c cs IH]; intros err st.
  - simpl. rewrite !app_nil_r. repeat split.
  - cbn [CloseAll_from]. cbv zeta.
    destruct (IH (multierr_Append err (fst (Close c st)))
                 (snd (Close c st))) as (He & Hc & Ht & Hen & Hb).
    rewrite He, Hc, Ht, Hen, Hb. unfold multierr_Append. simpl.
    rewrite <- !app_assoc. repeat split.
Qed.

(** [CloseAll] closes every registered closer, whatever the earlier ones
    returned, and returns all their errors together. *)
Lemma CloseAll_aggregates (st : state) :
  fst (CloseAll st) = concat (map close_result (entries st)) /\
  closed (snd (CloseAll st)) = rev (map closes (entries st)) ++ closed st /\
  trace (snd (CloseAll st))
  = trace st ++ map (fun c => EvClose (closes c)) (entries st) /\
  base (snd (CloseAll st)) = base st.
Proof.
  unfold CloseAll.
  destruct (CloseAll_from_result (entries st) [] st) as (He & Hc & Ht & _ & Hb).
  rewrite He, Hc, Ht, Hb. repeat split.
Qed.

(** C7 fails on the code: [Shutdown] returns nil whatever the closers
    return.  [CloseAll] inside it does close every registered closer and
    does aggregate their errors, but [Shutdown] only logs the aggregate
    (once, when it is not nil): its result is never assigned.  With
    [three_closers] registered, two of which fail, the aggregate holds both
    errors and [Shutdown] returns nil. *)
Theorem Shutdown_returns_nil (st : state) :
  fst (Shutdown st) = [] /\
  fst (CloseAll st) = concat (map close_result (entries st)) /\
  closed (snd (Shutdown st)) = rev (map closes (entries st)) ++ closed st /\
  trace (snd (Shutdown st))
  = trace st ++ map (fun c => EvClose (closes c)) (entries st) ++
    (if is_nil (fst (CloseAll st)) then []
     else [EvLog (shutdown_close (fst (CloseAll st)))]) /\
  (let failing := mkState three_closers 2 (Some (WithCancel Background)) false
                          [] [] thrifty [] in
   fst (CloseAll failing) = [21%nat; 22%nat] /\
   fst (Shutdown failing) = [] /\
   trace (snd (Shutdown failing)) =
     [EvClose (PacketConnOf 1); EvClose (ListenerOf 2); EvClose (ConnOf 3);
      EvLog (shutdown_close [21%nat; 22%nat])]).
Proof.
  destruct (CloseAll_aggregates st) as (He & Hc & Ht & Hb).
  split; [reflexivity|].
  split; [exact He|].
  split.
  { unfold Shutdown. cbv zeta.
    destruct (is_nil (fst (CloseAll st)));
      destruct (base _) eqn:Hbase; simpl; try rewrite Hc; reflexivity. }
  split.
  { unfold Shutdown. cbv zeta.
    destruct (is_nil (fst (CloseAll st)));
      destruct (base _) eqn:Hbase; simpl; rewrite Ht;
        rewrite ?app_nil_r, <- ?app_assoc; reflexivity. }
  vm_compute. repeat split; reflexivity.
Qed.

(** ** Frames of length 0 *)

Lemma with_runtime_same (st : state) : with_runtime (runtime st) st = st.
Proof.
  destruct st. reflexivity.
Qed.





(** ** The response writers *)

(** [GetBuffer] returns when the request is sound and less than 2^31
    bytes, which no runtime refuses. *)
Lemma GetBuffer_ok (a : allocator) (p : pool) (capacity length : Z) :
  0 <= length <= capacity /\ capacity < 2147483648 ->
  exists b a' p',
    GetBuffer a p capacity length = Ok (b, a', p') /\
    len b = length /\ capacity <= cap b.
Proof.
  intros [Hl Hsmall]. unfold GetBuffer.
  set (got := pool_Get a p).
  destruct (Z.leb_spec capacity (cap (fst (fst got)))) as [Hfit|Hgrow].
  - rewrite GrowBuffer_fits by lia. simpl.
    eexists _, _, _. split; [reflexivity|]. simpl. split; [reflexivity|].
    exact Hfit.
  - pose proof (cap_nonneg (fst (fst got))) as Hcap.
    rewrite GrowBuffer_grows by (try apply refused_small; lia). simpl.
    eexists _, _, _. split; [reflexivity|]. simpl. split; [reflexivity|].
    unfold cap in *. simpl. rewrite !length_app, !repeat_length. lia.
Qed.

Lemma firstn_front (pre data rest : list byte) (k : nat) :
  Datatypes.length pre = k ->
  firstn (k + Datatypes.length data) (pre ++ data ++ rest) = pre ++ data.
Proof.
  intros <-. rewrite firstn_app_2. f_equal.
  rewrite <- (Nat.add_0_r (Datatypes.length data)).
  rewrite firstn_app_2. simpl. apply app_nil_r.
Qed.

Lemma length_bytes (s : slice) :
  0 <= len s <= cap s -> Datatypes.length (bytes s) = Z.to_nat (len s).
Proof.
  intros Hl. unfold bytes, cap in *. rewrite length_firstn. lia.
Qed.

(** [append] puts the data behind the bytes the slice holds. *)
Lemma bytes_append (a : allocator) (s : slice) (data : list byte) :
  0 <= len s <= cap s ->
  bytes (fst (append a s data)) = bytes s ++ data /\
  len (fst (append a s data)) = len s + Z.of_nat (Datatypes.length data).
Proof.
  intros Hl. pose proof (length_bytes s Hl) as Hb.
  unfold append.
  destruct (len s + Z.of_nat (Datatypes.length data) <=? cap s); simpl.
  - split; [|reflexivity]. unfold bytes at 1. simpl.
    replace (Z.to_nat (len s + Z.of_nat (Datatypes.length data)))
      with (Z.to_nat (len s) + Datatypes.length data)%nat by lia.
    unfold write_at. apply firstn_front. exact Hb.
  - split; [|reflexivity]. unfold bytes at 1. simpl.
    replace (Z.to_nat (len s + Z.of_nat (Datatypes.length data)))
      with (Z.to_nat (len s) + Datatypes.length data)%nat by lia.
    apply firstn_front. exact Hb.
Qed.

Lemma bytes_poke (s : slice) (bs : list byte) :
  Z.of_nat (Datatypes.length bs) = len s -> bytes (poke s bs) = bs.
Proof.
  intros Hl. unfold bytes, poke. simpl.
  replace (Z.to_nat (len s)) with (Datatypes.length bs + 0)%nat by lia.
  rewrite firstn_app_2. simpl. apply app_nil_r.
Qed.

Lemma trace_with_memory (a : allocator) (p : pool) (st : state) :
  trace (with_memory a p st) = trace st /\
  closed (with_memory a p st) = closed st /\
  entries (with_memory a p st) = entries st.
Proof.
  repeat split.
Qed.

(** What [StreamWriter.SendBuilder] writes for a builder on a buffer of two
    bytes: the length header, then the message. *)
Lemma StreamWriter_SendBuilder_writes (conn : endpoint) (b : Builder) (st : state) :
  existsb (endpoint_eqb conn) (closed st) = false ->
  b_started b = true ->
  len (b_buf b) = 2 -> 2 <= cap (b_buf b) ->
  exists st' b0 b1,
    StreamWriter_SendBuilder conn b st = (st', Ok tt) /\
    trace st' = trace st ++ [EvWrite conn (b0 :: b1 :: b_encoded b)] /\
    be16 b0 b1 = (Z.of_nat (Datatypes.length (b0 :: b1 :: b_encoded b)) - 2) mod 65536.
Proof.
  intros Hopen Hstarted Hlen Hcap.
  unfold StreamWriter_SendBuilder, Finish. rewrite Hstarted.
  destruct (bytes_append (runtime st) (b_buf b) (b_encoded b)) as [Hbytes Hlen'];
    [lia|].
  pose proof (length_bytes (b_buf b)) as Hpre.
  rewrite Hlen in Hpre. specialize (Hpre ltac:(lia)).
  destruct (append (runtime st) (b_buf b) (b_encoded b)) as [msg a] eqn:Happ.
  simpl in Hbytes, Hlen'.
  rewrite Hbytes.
  destruct (bytes (b_buf b)) as [|p0 [|p1 [|p2 pre]]]; simpl in Hpre; try lia.
  cbn [app EncodeLength].
  set (v := uint16 (len msg - 2)).
  assert (Hpoke : bytes (poke msg (byte_of_Z (Z.shiftr v 8) :: byte_of_Z v :: b_encoded b))
                  = byte_of_Z (Z.shiftr v 8) :: byte_of_Z v :: b_encoded b).
  { apply bytes_poke. simpl Datatypes.length. lia. }
  rewrite Hpoke.
  unfold StreamWriter_Send.
  replace (closed (with_runtime a st)) with (closed st) by reflexivity.
  rewrite Hopen. cbn [fst snd].
  eexists _, _, _. split; [reflexivity|]. split; [reflexivity|].
  rewrite be16_encode. unfold v, uint16.
  rewrite Z.mod_mod by lia. f_equal.
  cbn [Datatypes.length]. rewrite !Nat2Z.inj_succ. lia.
Qed.

(** What [PacketWriter.SendBuilder] writes for a builder on an empty buffer:
    the message. *)
Lemma PacketWriter_SendBuilder_writes (conn : endpoint) (addr : option Addr)
      (b : Builder) (st : state) :
  existsb (endpoint_eqb conn) (closed st) = false ->
  b_started b = true ->
  len (b_buf b) = 0 ->
  exists st',
    PacketWriter_SendBuilder conn addr b st = (st', Ok tt) /\
    trace st' = trace st ++ [EvWriteTo conn addr (b_encoded b)].
Proof.
  intros Hopen Hstarted Hlen.
  unfold PacketWriter_SendBuilder, Finish. rewrite Hstarted.
  destruct (bytes_append (runtime st) (b_buf b) (b_encoded b)) as [Hbytes _];
    [unfold cap; lia|].
  destruct (append (runtime st) (b_buf b) (b_encoded b)) as [msg a] eqn:Happ.
  assert (Hnil : bytes (b_buf b) = []) by (unfold bytes; rewrite Hlen; reflexivity).
  simpl in Hbytes. rewrite Hnil in Hbytes. rewrite Hbytes. cbn [app].
  unfold PacketWriter_Send.
  replace (closed (with_runtime a st)) with (closed st) by reflexivity.
  rewrite Hopen. cbn [fst snd].
  eexists. split; reflexivity.
Qed.

(** C5, as the code has it.  A message built on [StreamWriter.Builder] and
    sent with [StreamWriter.SendBuilder] goes to the connection as two bytes
    and then the encoded message; the two bytes are the big-endian encoding
    of (total bytes - 2) reduced modulo 2^16, which is total bytes - 2 for
    every message of at most 65535 bytes.  A message built on
    [PacketWriter.Builder] and sent with [PacketWriter.SendBuilder] goes out
    as the encoded message and nothing else. *)
Theorem SendBuilder_framing (Header_pack : Header -> list byte) (h : Header)
        (m : list byte) (conn : endpoint) (addr : option Addr) (st : state) :
  existsb (endpoint_eqb conn) (closed st) = false ->
  (exists b st1 st2 b0 b1,
      StreamWriter_Builder Header_pack h st = (st1, Ok b) /\
      StreamWriter_SendBuilder conn (Builder_encode b m) st1 = (st2, Ok tt) /\
      trace st2 = trace st ++ [EvWrite conn (b0 :: b1 :: m)] /\
      be16 b0 b1 = (Z.of_nat (Datatypes.length (b0 :: b1 :: m)) - 2) mod 65536) /\
  (exists b st1 st2,
      PacketWriter_Builder Header_pack h st = (st1, Ok b) /\
      PacketWriter_SendBuilder conn addr (Builder_encode b m) st1 = (st2, Ok tt) /\
      trace st2 = trace st ++ [EvWriteTo conn addr m]).
Proof.
  intros Hopen. split.
  - unfold StreamWriter_Builder.
    destruct (GetBuffer_ok (runtime st) (buffers st) 4096 2) as (b & a & p & Hget & Hlen & Hcap);
      [lia|].
    rewrite Hget.
    destruct (StreamWriter_SendBuilder_writes conn
                (Builder_encode (NewBuilder Header_pack b h) m) (with_memory a p st))
      as (st2 & b0 & b1 & Hsend & Htrace & Hbe); try assumption; try reflexivity.
    + simpl. lia.
    + exists (NewBuilder Header_pack b h), (with_memory a p st), st2, b0, b1.
      repeat split; assumption.
  - unfold PacketWriter_Builder.
    destruct (GetBuffer_ok (runtime st) (buffers st) 4096 0) as (b & a & p & Hget & Hlen & Hcap);
      [lia|].
    rewrite Hget.
    destruct (PacketWriter_SendBuilder_writes conn addr
                (Builder_encode (NewBuilder Header_pack b h) m) (with_memory a p st))
      as (st2 & Hsend & Htrace); try assumption; try reflexivity.
    exists (NewBuilder Header_pack b h), (with_memory a p st), st2.
    repeat split; assumption.
Qed.

(** The header of query 42, sent through both writers of a fresh server. *)
Lemma SendBuilder_framing_witness :
  (exists b st1 st2 b0 b1,
      StreamWriter_Builder pack_id zero_Header boot = (st1, Ok b) /\
      StreamWriter_SendBuilder (ConnOf 7) (Builder_encode b (GenerateQuery 42)) st1
      = (st2, Ok tt) /\
      trace st2 = trace boot ++ [EvWrite (ConnOf 7) (b0 :: b1 :: GenerateQuery 42)] /\
      be16 b0 b1
      = (Z.of_nat (Datatypes.length (b0 :: b1 :: GenerateQuery 42)) - 2) mod 65536) /\
  (exists b st1 st2,
      PacketWriter_Builder pack_id zero_Header boot = (st1, Ok b) /\
      PacketWriter_SendBuilder (PacketConnOf 7) peer_addr
                               (Builder_encode b (GenerateQuery 42)) st1
      = (st2, Ok tt) /\
      trace st2 = trace boot ++ [EvWriteTo (PacketConnOf 7) peer_addr (GenerateQuery 42)]).
Proof.
  split.
  - apply (SendBuilder_framing pack_id zero_Header (GenerateQuery 42)
             (ConnOf 7) peer_addr boot).
    reflexivity.
  - apply (SendBuilder_framing pack_id zero_Header (GenerateQuery 42)
             (PacketConnOf 7) peer_addr boot).
    reflexivity.
Defined.

(** C5, as the spec has it, fails: a message of 65536 bytes built on
    [StreamWriter.Builder].  The frame on the wire has 65538 bytes and its
    first two bytes are 0 0, which is the encoding of 0 and not of 65536. *)
Lemma oversized_message_header :
  match StreamWriter_Builder pack_id zero_Header boot with
  | (st1, Ok b) =>
      map (fun frame => (Z.of_nat (Datatypes.length frame) - 2, firstn 2 frame))
          (written (trace (fst (StreamWriter_SendBuilder
                                  (ConnOf 7)
                                  (Builder_encode b (repeat x01 (Z.to_nat 65536)))
                                  st1))))
      = [(65536, [x00; x00])]
  | (_, Panic _) => False
  end /\
  be16 x00 x00 = 0.
Proof.
  split; vm_compute; reflexivity.
Qed.

(** ** What the reassembly loop leaves in the trace *)

Lemma extends_refl (conn : StreamTester) (st : state) : extends conn st st.
Proof.
  exists []. rewrite app_nil_r. repeat split. constructor.
Qed.

Lemma extends_trans (conn : StreamTester) (st1 st2 st3 : state) :
  extends conn st1 st2 -> extends conn st2 st3 -> extends conn st1 st3.
Proof.
  intros (e1 & Ht1 & Hf1 & He1) (e2 & Ht2 & Hf2 & He2).
  exists (e1 ++ e2). rewrite Ht2, Ht1, app_assoc, He2, He1.
  repeat split. apply Forall_app. split; assumption.
Qed.

Lemma extends_emit (conn : StreamTester) (ev : event) (st : state) :
  stream_event conn ev -> extends conn st (emit ev st).
Proof.
  intros Hev. exists [ev]. repeat split. constructor; [exact Hev | constructor].
Qed.

Lemma extends_with_memory (conn : StreamTester) (a : allocator) (p : pool) (st : state) :
  extends conn st (with_memory a p st).
Proof.
  exists []. rewrite app_nil_r. repeat split. constructor.
Qed.

Lemma frames_extends (Start : list byte -> Header + error) (H : Type)
      (server : Server H) (c : Context) (conn : StreamTester) (fuel : nat) :
  forall (cur : cursor) (st : state) (hw : hworld H),
    extends conn st (snd (fst (fst (frames Start fuel server c conn cur st hw)))).
Proof.
  induction fuel as [|fuel IH]; intros cur st hw.
  - simpl. destruct (wpos cur - rpos cur >=? 14); apply extends_refl.
  - rewrite frames_step.
    destruct (wpos cur - rpos cur >=? 14); [|apply extends_refl].
    destruct (b <- from (buf cur) (rpos cur);; DecodeLength b) as [size|p];
      [|apply extends_refl].
    destruct (GrowBuffer (runtime st) (buf cur) size size) as [[grown a]|p];
      [|apply extends_refl].
    destruct (size >? wpos cur - (rpos cur + 2));
      [apply extends_with_memory|].
    destruct (sub grown (rpos cur + 2) (rpos cur + 2 + size)) as [payload|p];
      [|apply extends_with_memory].
    cbv zeta.
    eapply extends_trans; [apply extends_with_memory|].
    eapply extends_trans; [|apply IH].
    apply extends_emit. simpl. repeat split.
Qed.

Lemma stream_loop_extends (Start : list byte -> Header + error) (H : Type)
      (server : Server H) (c : Context) (conn : StreamTester) (fuel : nat) :
  forall (chs : list (list byte)) (cur : cursor) (st : state) (hw : hworld H),
    extends conn st
            (snd (fst (fst (stream_loop Start fuel server c conn chs cur st hw)))).
Proof.
  induction fuel as [|fuel IH]; intros chs cur st hw.
  - apply extends_refl.
  - simpl.
    destruct (read chs cur) as [[[cur1 err] chs1]|p]; [|apply extends_refl].
    pose proof (frames_extends Start H server c conn
                  (Z.to_nat (wpos cur1 - rpos cur1)) cur1
                  (emit (EvBlock (ConnOf (st_id conn))) st) hw) as Hfr.
    assert (Hblock : extends conn st (emit (EvBlock (ConnOf (st_id conn))) st))
      by (apply extends_emit; reflexivity).
    destruct (frames Start _ server c conn cur1 _ hw) as [[[cA stA] hwA] eA].
    simpl in Hfr. pose proof (extends_trans _ _ _ _ Hblock Hfr) as Hst.
    simpl.
    destruct eA as [[]|p|]; try exact Hst.
    destruct (is_EOF err); [exact Hst|].
    destruct (negb (is_nil err)).
    { simpl. eapply extends_trans; [exact Hst|]. apply extends_emit. exact I. }
    destruct (compact cA) as [cur2|p]; [|exact Hst].
    eapply extends_trans; [exact Hst|]. apply IH.
Qed.

Lemma HandleStream_extends (Start : list byte -> Header + error) (H : Type)
      (server : Server H) (c : Context) (conn : StreamTester)
      (st : state) (hw : hworld H) :
  extends conn st (fst (fst (HandleStream Start server c conn st hw))).
Proof.
  unfold HandleStream.
  destruct (GetBuffer (runtime st) (buffers st) 4096 4096) as [[[b a] p]|p].
  - set (c' := match ConnContext server with
               | Some g => g c (ConnOf (st_id conn))
               | None => c
               end).
    pose proof (stream_loop_extends Start H server c' conn (S (budget (chunks conn)))
                  (chunks conn) (mkCursor b 0 0) (with_memory a p st) hw) as Hloop.
    destruct (stream_loop Start _ server c' conn _ _ _ hw) as [[[cA stA] hwA] eA].
    simpl in Hloop. cbn [fst snd].
    eapply extends_trans; [apply extends_with_memory|].
    eapply extends_trans; [exact Hloop|].
    destruct Hloop as (evs & Ht & Hf & He).
    exists [EvClose (ConnOf (st_id conn))]. repeat split.
    constructor; [reflexivity | constructor].
  - cbn [fst snd].
    exists [EvClose (ConnOf (st_id conn))]. repeat split.
    constructor; [reflexivity | constructor].
Qed.

Lemma registered_app (l1 l2 : list event) :
  registered (l1 ++ l2) = registered l1 ++ registered l2.
Proof.
  induction l1 as [|[] l1 IH]; simpl; rewrite ?IH; reflexivity.
Qed.

Lemma dispatches_app (l1 l2 : list event) :
  dispatches (l1 ++ l2) = dispatches l1 ++ dispatches l2.
Proof.
  induction l1 as [|[] l1 IH]; simpl; rewrite ?IH; reflexivity.
Qed.

Lemma blocked_on_app (l1 l2 : list event) :
  blocked_on (l1 ++ l2) = blocked_on l1 ++ blocked_on l2.
Proof.
  induction l1 as [|[] l1 IH]; simpl; rewrite ?IH; reflexivity.
Qed.

Lemma stream_events_register_nothing (conn : StreamTester) (evs : list event) :
  Forall (stream_event conn) evs -> registered evs = [].
Proof.
  induction 1 as [|ev evs Hev _ IH]; [reflexivity|].
  destruct ev; simpl in *; try exact IH. contradiction.
Qed.

Lemma stream_events_dispatches (conn : StreamTester) (evs : list event) :
  Forall (stream_event conn) evs ->
  Forall (peer_on_both_sides conn) (dispatches evs).
Proof.
  induction 1 as [|ev evs Hev _ IH]; [constructor|].
  destruct ev; simpl in *; try exact IH.
  constructor; [|exact IH]. destruct Hev as (_ & Hl & Hr). split; assumption.
Qed.

Lemma stream_loop_after_read (Start : list byte -> Header + error) (H : Type)
      (server : Server H) (c : Context) (conn : StreamTester) (fuel : nat)
      (chs : list (list byte)) (cur : cursor) (st : state) (hw : hworld H)
      (x : cursor * error * list (list byte)) :
  read chs cur = Ok x ->
  extends conn (emit (EvBlock (ConnOf (st_id conn))) st)
          (snd (fst (fst (stream_loop Start (S fuel) server c conn chs cur st hw)))).
Proof.
  intros Hread. simpl. rewrite Hread. destruct x as [[cur1 err] chs1].
  pose proof (frames_extends Start H server c conn
                (Z.to_nat (wpos cur1 - rpos cur1)) cur1
                (emit (EvBlock (ConnOf (st_id conn))) st) hw) as Hst.
  destruct (frames Start _ server c conn cur1 _ hw) as [[[cA stA] hwA] eA].
  simpl in Hst. simpl.
  destruct eA as [[]|p|]; try exact Hst.
  destruct (is_EOF err); [exact Hst|].
  destruct (negb (is_nil err)).
  { simpl. eapply extends_trans; [exact Hst|]. apply extends_emit. exact I. }
  destruct (compact cA) as [cur2|p]; [|exact Hst].
  eapply extends_trans; [exact Hst|]. apply stream_loop_extends.
Qed.

(** [HandleStream] starts by reading from its connection. *)
Lemma HandleStream_blocks (Start : list byte -> Header + error) (H : Type)
      (server : Server H) (c : Context) (conn : StreamTester)
      (st : state) (hw : hworld H) :
  In (ConnOf (st_id conn))
     (blocked_on (trace (fst (fst (HandleStream Start server c conn st hw))))).
Proof.
  unfold HandleStream.
  destruct (GetBuffer_ok (runtime st) (buffers st) 4096 4096)
    as (b & a & p & Hget & Hlen & Hcap); [lia|].
  rewrite Hget.
  set (c' := match ConnContext server with
             | Some g => g c (ConnOf (st_id conn))
             | None => c
             end).
  assert (Hread : exists x, read (chunks conn) (mkCursor b 0 0) = Ok x).
  { unfold read, from, sub. cbn [buf wpos]. rewrite Hlen.
    destruct (Z.leb_spec 4096 (cap b)); [|lia].
    simpl. eexists. reflexivity. }
  destruct Hread as [x Hread].
  pose proof (stream_loop_after_read Start H server c' conn (budget (chunks conn))
                (chunks conn) (mkCursor b 0 0) (with_memory a p st) hw x Hread)
    as (evs & Ht & _).
  destruct (stream_loop Start _ server c' conn _ _ _ hw) as [[[cA stA] hwA] eA].
  cbn [fst snd] in *. unfold Close, emit, with_memory. cbn [fst snd trace].
  rewrite Ht. unfold emit, with_memory. cbn [trace].
  rewrite !blocked_on_app. simpl.
  apply in_or_app. left. apply in_or_app. left. apply in_or_app. right.
  left. reflexivity.
Qed.

Lemma accept_loop_entries (Start : list byte -> Header + error) (H : Type)
      (server : Server H) (c : Context) (listener : Listener)
      (conns : list StreamTester) :
  forall (st : state) (hw : hworld H),
    entries (fst (fst (accept_loop Start server c listener conns st hw))) = entries st.
Proof.
  induction conns as [|conn rest IH]; intros st hw; [reflexivity|].
  cbn [accept_loop]. cbv zeta.
  destruct (HandleStream_extends Start H server c conn
              (emit (EvGo (GoHandleStream c (ConnOf (st_id conn))))
                      (Add 1 (emit (EvBlock (ListenerOf (l_id listener))) st))) hw)
    as (evs & _ & _ & He).
  destruct (HandleStream Start server c conn _ hw) as [[stA hwA] eA].
  cbn [fst snd] in *.
  destruct eA as [[]|p|]; cbn [fst snd]; try exact He.
  rewrite IH. exact He.
Qed.

(** [ServeStream] registers its listener, and nothing else, whatever it
    accepts. *)
Lemma ServeStream_registers_listener_only (Start : list byte -> Header + error)
      (H : Type) (server : Server H) (listener : Listener)
      (st : state) (hw : hworld H) :
  entries (fst (fst (ServeStream Start server listener st hw))) =
  entries st ++ [mkCloser (ListenerOf (l_id listener)) (l_Close listener)].
Proof.
  unfold ServeStream. cbv zeta. cbn [fst snd].
  unfold Close. cbn [snd]. unfold Add, emit. cbn [entries].
  rewrite accept_loop_entries.
  unfold Context_of, AddCloser, Add, emit. cbn [base entries].
  destruct (base st); reflexivity.
Qed.

(** C8 fails on the code: [HandleStream] reads from the connection it is
    given and never registers it.  For every accepted connection the set of
    closers is after the loop what it was before it, no [AddCloser] is in
    what the loop did, and the loop has blocked on the connection.
    [ServeStream] adds its listener to the closers and nothing else,
    whatever it accepts: on a listener that hands out one connection it ends
    with the listener as the only closer registered, though two endpoints
    were read from.  [Serve] registers its connection. *)
Theorem accepted_conn_never_registered (Start : list byte -> Header + error)
        (H : Type) (server : Server H) (c : Context) (conn : StreamTester)
        (st : state) (hw : hworld H) :
  entries (fst (fst (HandleStream Start server c conn st hw))) = entries st /\
  registered (trace (fst (fst (HandleStream Start server c conn st hw))))
  = registered (trace st) /\
  In (ConnOf (st_id conn))
     (blocked_on (trace (fst (fst (HandleStream Start server c conn st hw))))) /\
  (forall listener : Listener,
      entries (fst (fst (ServeStream Start server listener st hw))) =
      entries st ++ [mkCloser (ListenerOf (l_id listener)) (l_Close listener)]) /\
  (let after := fst (fst (ServeStream Start_id recorder one_conn_listener boot ([], []))) in
   map closes (entries after) = [ListenerOf 3] /\
   registered (trace after) = [ListenerOf 3] /\
   blocked_on (trace after) = [ListenerOf 3; ConnOf 7; ConnOf 7; ListenerOf 3]) /\
  registered (trace (fst (fst (Serve Start_id recorder one_datagram boot ([], [])))))
  = [PacketConnOf 5].
Proof.
  destruct (HandleStream_extends Start H server c conn st hw) as (evs & Ht & Hf & He).
  split; [exact He|].
  split.
  { rewrite Ht, registered_app, (stream_events_register_nothing conn evs Hf).
    apply app_nil_r. }
  split; [apply HandleStream_blocks|].
  split; [intros listener; apply ServeStream_registers_listener_only|].
  split; [vm_compute; repeat split; reflexivity|].
  vm_compute. reflexivity.
Qed.

(** C9 fails on the code: every request the reassembly loop builds has the
    peer's address as its local address, too.  On the connection of
    [TestStream], whose local address is 10.0.1.1:53, the request says
    1.2.3.4:4242.  The datagram loop gives its requests the connection's
    local address and the sender's. *)
Theorem stream_request_local_is_peer (Start : list byte -> Header + error)
        (H : Type) (server : Server H) (c : Context) (conn : StreamTester)
        (st : state) (hw : hworld H) :
  (exists evs,
      trace (fst (fst (HandleStream Start server c conn st hw))) = trace st ++ evs /\
      Forall (peer_on_both_sides conn) (dispatches evs)) /\
  (let after := fst (fst (HandleStream Start_id recorder Background
                                       (stream_of [test_frame1]) boot ([], []))) in
   map (fun d => LocalAddr (d_request d)) (dispatches (trace after)) = [peer_addr] /\
   st_LocalAddr (stream_of [test_frame1]) = host_addr /\
   peer_addr <> host_addr) /\
  map (fun d => (LocalAddr (d_request d), RemoteAddr (d_request d)))
      (dispatches (trace (fst (fst (Serve Start_id recorder one_datagram boot ([], []))))))
  = [(dt_LocalAddr one_datagram, Some (UDPAddr [1; 2; 3; 4] 5367))].
Proof.
  destruct (HandleStream_extends Start H server c conn st hw) as (evs & Ht & Hf & He).
  split.
  { exists evs. split; [exact Ht|]. apply stream_events_dispatches. exact Hf. }
  split.
  { split; [vm_compute; reflexivity|]. split; [reflexivity|].
    intro E. discriminate E. }
  vm_compute. reflexivity.
Qed.

(** ** The step budget of the model is never used up *)

Lemma frames_budget (Start : list byte -> Header + error) (H : Type)
      (server : Server H) (c : Context) (conn : StreamTester) (fuel : nat) :
  forall (cur : cursor) (st : state) (hw : hworld H),
    wpos cur - rpos cur <= Z.of_nat fuel ->
    snd (frames Start fuel server c conn cur st hw) <> OutOfFuel.
Proof.
  induction fuel as [|fuel IH]; intros cur st hw Hfuel.
  - rewrite frames_below by lia. discriminate.
  - rewrite frames_step.
    destruct (wpos cur - rpos cur >=? 14); [|discriminate].
    destruct (b <- from (buf cur) (rpos cur);; DecodeLength b) as [size|p];
      [|discriminate].
    destruct (GrowBuffer (runtime st) (buf cur) size size) as [[grown a]|p] eqn:Hg;
      [|discriminate].
    destruct (size >? wpos cur - (rpos cur + 2)); [discriminate|].
    destruct (sub grown (rpos cur + 2) (rpos cur + 2 + size)) as [payload|p];
      [|discriminate].
    cbv zeta. apply IH. cbn [wpos rpos].
    apply GrowBuffer_len in Hg. lia.
Qed.

Lemma StreamTester_Read_progress (chs : list (list byte)) (room : nat) :
  is_EOF (snd (fst (StreamTester_Read chs room))) = false ->
  is_nil (snd (fst (StreamTester_Read chs room))) = true ->
  (budget (snd (StreamTester_Read chs room)) < budget chs)%nat.
Proof.
  destruct chs as [|ch rest]; simpl.
  - discriminate.
  - destruct (Nat.eqb_spec (Nat.min room (Datatypes.length ch)) (Datatypes.length ch))
      as [Hall|Hpart]; simpl.
    + lia.
    + destruct (Nat.eqb_spec (Nat.min room (Datatypes.length ch)) 0) as [Hz|Hnz]; simpl.
      * discriminate.
      * intros _ _. rewrite length_skipn. lia.
Qed.

Lemma stream_loop_budget (Start : list byte -> Header + error) (H : Type)
      (server : Server H) (c : Context) (conn : StreamTester) (fuel : nat) :
  forall (chs : list (list byte)) (cur : cursor) (st : state) (hw : hworld H),
    (budget chs < fuel)%nat ->
    snd (stream_loop Start fuel server c conn chs cur st hw) <> OutOfFuel.
Proof.
  induction fuel as [|fuel IH]; intros chs cur st hw Hfuel; [lia|].
  simpl.
  destruct (read chs cur) as [[[cur1 err] chs1]|p] eqn:Hread; [|discriminate].
  assert (Hprog : is_EOF err = false -> is_nil err = true ->
                  (budget chs1 < budget chs)%nat).
  { unfold read in Hread.
    destruct (from (buf cur) (wpos cur)) as [dst|p]; simpl in Hread; [|discriminate].
    injection Hread as _ <- <-. apply StreamTester_Read_progress. }
  pose proof (frames_budget Start H server c conn
                (Z.to_nat (wpos cur1 - rpos cur1)) cur1
                (emit (EvBlock (ConnOf (st_id conn))) st) hw ltac:(lia)) as Hfr.
  destruct (frames Start _ server c conn cur1 _ hw) as [[[cA stA] hwA] eA].
  simpl in Hfr. simpl.
  destruct eA as [[]|p|]; [|discriminate|contradiction].
  destruct (is_EOF err) eqn:Heof; [discriminate|].
  destruct (is_nil err) eqn:Hnil; simpl; [|discriminate].
  destruct (compact cA) as [cur2|p]; [|discriminate].
  apply IH. specialize (Hprog eq_refl eq_refl). lia.
Qed.

(** The reassembly loop on a [StreamTester] comes to an end: it returns or
    it panics. *)
Lemma HandleStream_budget (Start : list byte -> Header + error) (H : Type)
      (server : Server H) (c : Context) (conn : StreamTester)
      (st : state) (hw : hworld H) :
  snd (HandleStream Start server c conn st hw) <> OutOfFuel.
Proof.
  unfold HandleStream.
  destruct (GetBuffer (runtime st) (buffers st) 4096 4096) as [[[b a] p]|p];
    [|discriminate].
  cbn [snd]. apply stream_loop_budget. lia.
Qed.

(** ** Streams too short to be looked at *)

Lemma StreamTester_Read_conserves (chs : list (list byte)) (room : nat) :
  (Datatypes.length (fst (fst (StreamTester_Read chs room))) +
   Datatypes.length (concat (snd (StreamTester_Read chs room)))
   <= Datatypes.length (concat chs))%nat.
Proof.
  destruct chs as [|ch rest]; simpl; [lia|].
  destruct (Nat.eqb (Nat.min room (Datatypes.length ch)) (Datatypes.length ch)); simpl.
  - rewrite length_app, length_firstn. lia.
  - destruct (Nat.eqb (Nat.min room (Datatypes.length ch)) 0); simpl.
    + lia.
    + rewrite !length_app, length_firstn, length_skipn. lia.
Qed.

Lemma read_short (chs chs1 : list (list byte)) (cur cur1 : cursor) (err : error) :
  read chs cur = Ok (cur1, err, chs1) ->
  rpos cur1 = rpos cur /\
  wpos cur1 + Z.of_nat (Datatypes.length (concat chs1))
  <= wpos cur + Z.of_nat (Datatypes.length (concat chs)).
Proof.
  unfold read. intros Hread.
  destruct (from (buf cur) (wpos cur)) as [dst|p]; simpl in Hread; [|discriminate].
  pose proof (StreamTester_Read_conserves chs (Datatypes.length dst)) as Hc.
  injection Hread as <- _ <-. simpl. split; [reflexivity | lia].
Qed.

Lemma compact_short (cur cur2 : cursor) :
  0 <= rpos cur -> compact cur = Ok cur2 ->
  rpos cur2 = 0 /\ wpos cur2 <= wpos cur.
Proof.
  unfold compact, sub. intros Hr Hc.
  destruct (Z.leb_spec 0 (rpos cur)); [|lia].
  destruct (Z.leb_spec (rpos cur) (wpos cur)); simpl in Hc; [|discriminate].
  destruct (wpos cur <=? cap (buf cur)); simpl in Hc; [|discriminate].
  unfold upto in Hc.
  destruct (_ && _) in Hc; simpl in Hc; [|discriminate].
  injection Hc as <-. simpl. split; [reflexivity|].
  rewrite length_firstn. lia.
Qed.

Lemma dispatches_emit_other (ev : event) (st : state) :
  dispatches [ev] = [] -> dispatches (trace (emit ev st)) = dispatches (trace st).
Proof.
  intros Hev. unfold emit. simpl. rewrite dispatches_app, Hev. apply app_nil_r.
Qed.

Lemma stream_loop_short (Start : list byte -> Header + error) (H : Type)
      (server : Server H) (c : Context) (conn : StreamTester) (fuel : nat) :
  forall (chs : list (list byte)) (cur : cursor) (st : state) (hw : hworld H),
    0 <= rpos cur ->
    wpos cur + Z.of_nat (Datatypes.length (concat chs)) < 14 ->
    dispatches (trace (snd (fst (fst
        (stream_loop Start fuel server c conn chs cur st hw))))) =
    dispatches (trace st).
Proof.
  induction fuel as [|fuel IH]; intros chs cur st hw Hr Hshort; [reflexivity|].
  simpl.
  destruct (read chs cur) as [[[cur1 err] chs1]|p] eqn:Hread; [|reflexivity].
  destruct (read_short _ _ _ _ _ Hread) as [Hr1 Hw1].
  rewrite frames_below by lia. simpl.
  assert (Hblock : dispatches (trace (emit (EvBlock (ConnOf (st_id conn))) st)) =
                   dispatches (trace st))
    by (apply dispatches_emit_other; reflexivity).
  destruct (is_EOF err); [exact Hblock|].
  destruct (negb (is_nil err)).
  { cbn [fst snd]. rewrite dispatches_emit_other by reflexivity. exact Hblock. }
  destruct (compact cur1) as [cur2|p] eqn:Hc; [|exact Hblock].
  destruct (compact_short cur1 cur2 ltac:(lia) Hc) as [Hr2 Hw2].
  rewrite IH by lia. exact Hblock.
Qed.

(** A connection that sends fewer than 14 bytes in all gets nothing
    dispatched, whatever the bytes are; so a frame with a body of fewer than
    12 bytes (one of length 0, too) sent alone is never dispatched. *)
Lemma short_stream_never_dispatched (Start : list byte -> Header + error) (H : Type)
      (server : Server H) (c : Context) (conn : StreamTester)
      (st : state) (hw : hworld H) :
  Z.of_nat (Datatypes.length (concat (chunks conn))) < 14 ->
  dispatches (trace (fst (fst (HandleStream Start server c conn st hw)))) =
  dispatches (trace st).
Proof.
  intros Hshort. unfold HandleStream.
  destruct (GetBuffer (runtime st) (buffers st) 4096 4096) as [[[b a] p]|p].
  - set (c' := match ConnContext server with
               | Some g => g c (ConnOf (st_id conn))
               | None => c
               end).
    pose proof (stream_loop_short Start H server c' conn (S (budget (chunks conn)))
                  (chunks conn) (mkCursor b 0 0) (with_memory a p st) hw) as Hloop.
    destruct (stream_loop Start _ server c' conn _ _ _ hw) as [[[cA stA] hwA] eA].
    cbn [fst snd] in *. unfold Close. cbn [snd].
    rewrite dispatches_emit_other by reflexivity. cbn [trace with_memory].
    apply Hloop; cbn [rpos wpos]; lia.
  - cbn [fst snd]. unfold Close. cbn [snd].
    rewrite dispatches_emit_other by reflexivity. reflexivity.
Qed.

(* ================================================================== *)
(** * Further properties of the code *)

(** ** The length header *)

(** X1: a 16-bit value written with [EncodeLength] into a buffer of two
    bytes or more is read back by [DecodeLength]; the bytes behind the
    first two are left as they were. *)
Theorem length_header_round_trip (b0 b1 : byte) (rest : list byte) (v : Z) :
  exists e0 e1,
    EncodeLength (b0 :: b1 :: rest) (uint16 v) = Ok (e0 :: e1 :: rest) /\
    DecodeLength (e0 :: e1 :: rest) = Ok (uint16 v).
Proof.
  eexists _, _. split; [reflexivity|].
  rewrite DecodeLength_be16, be16_encode. unfold uint16.
  rewrite Z.mod_mod by lia. reflexivity.
Qed.

(** X2: [DecodeLength] reads its first two bytes as a big-endian number,
    which lies between 0 and 65535; on a buffer of fewer than two bytes
    [DecodeLength] and [EncodeLength] panic with an index out of range. *)
Theorem length_header_bounds (b : list byte) (v : Z) :
  match b with
  | b0 :: b1 :: _ =>
      DecodeLength b = Ok (256 * byte_to_Z b0 + byte_to_Z b1) /\
      0 <= 256 * byte_to_Z b0 + byte_to_Z b1 < 65536
  | _ =>
      DecodeLength b = Panic IndexOutOfRange /\
      EncodeLength b v = Panic IndexOutOfRange
  end.
Proof.
  destruct b as [|b0 [|b1 rest]]; try (split; reflexivity).
  split; [apply DecodeLength_be16 | apply be16_range].
Qed.

(** ** The test connection *)

(** X3: [StreamTester.Read] hands out the bytes of the stream in order,
    without loss or repetition, and never more than the destination holds;
    it reports the end of the stream exactly when no chunk is left, and its
    own error exactly when the destination is empty and the next chunk is
    not. *)
Theorem StreamTester_Read_spec (chs : list (list byte)) (room : nat) :
  let data := fst (fst (StreamTester_Read chs room)) in
  let err := snd (fst (StreamTester_Read chs room)) in
  let left := snd (StreamTester_Read chs room) in
  data ++ concat left = concat chs /\
  (Datatypes.length data <= room)%nat /\
  err = match chs with
        | [] => io_EOF
        | ch :: _ =>
            if Nat.eqb room 0 && negb (Nat.eqb (Datatypes.length ch) 0)
            then ErrRead0 else []
        end.
Proof.
  cbv zeta. destruct chs as [|ch rest]; [repeat split; simpl; lia|].
  cbn [StreamTester_Read].
  destruct (Nat.eqb_spec (Nat.min room (Datatypes.length ch)) (Datatypes.length ch))
    as [Hall|Hpart].
  - cbn [fst snd]. rewrite Hall, firstn_all. repeat split; [lia|].
    destruct (Nat.eqb_spec room 0); destruct (Nat.eqb_spec (Datatypes.length ch) 0);
      simpl; try reflexivity; lia.
  - destruct (Nat.eqb_spec (Nat.min room (Datatypes.length ch)) 0) as [Hz|Hnz];
      cbn [fst snd].
    + repeat split; [simpl; lia|].
      destruct (Nat.eqb_spec room 0); destruct (Nat.eqb_spec (Datatypes.length ch) 0);
        simpl; try reflexivity; lia.
    + split.
      { cbn [concat]. rewrite app_assoc, firstn_skipn. reflexivity. }
      split; [rewrite length_firstn; lia|].
      destruct (Nat.eqb_spec room 0); destruct (Nat.eqb_spec (Datatypes.length ch) 0);
        simpl; try reflexivity; lia.
Qed.

(** ** The buffer pool, further *)

Lemma GrowBuffer_cap (a a' : allocator) (b b' : slice) (capacity length : Z) :
  GrowBuffer a b capacity length = Ok (b', a') ->
  capacity <= cap b' /\ cap b <= cap b'.
Proof.
  intros Hg.
  destruct (GrowBuffer_cases a b capacity length)
    as [[[p Hp] _] | [(Hl & Hfit & Hfits) | (Hl & Hgrow & _ & _ & Hgrows)]].
  - rewrite Hp in Hg. discriminate.
  - rewrite Hfits in Hg. injection Hg as <- _.
    unfold cap in *. simpl. lia.
  - rewrite Hgrows in Hg. injection Hg as <- _.
    unfold cap in *. simpl. rewrite !length_app, !repeat_length. lia.
Qed.

(** X4: growing a buffer never takes capacity away, and growing the result
    again to the same capacity and length changes nothing: the same slice,
    no allocation. *)
Theorem GrowBuffer_idempotent (a a' : allocator) (b b' : slice)
        (capacity length : Z) :
  GrowBuffer a b capacity length = Ok (b', a') ->
  cap b <= cap b' /\
  GrowBuffer a' b' capacity length = Ok (b', a').
Proof.
  intros Hg.
  destruct (GrowBuffer_len _ _ _ _ _ _ Hg) as [Hl Hlen].
  destruct (GrowBuffer_cap _ _ _ _ _ _ Hg) as [Hc Hmono].
  split; [exact Hmono|].
  rewrite GrowBuffer_fits by lia.
  destruct b' as [p s l]. simpl in Hlen. subst l. reflexivity.
Qed.

(** A fresh buffer grown to twice its size, and grown again. *)
Lemma GrowBuffer_idempotent_witness :
  cap fresh <= 8192 /\
  GrowBuffer (allocated thrifty)
             (mkSlice 0 (repeat x00 (Z.to_nat 8192)) 100) 8192 100
  = Ok (mkSlice 0 (repeat x00 (Z.to_nat 8192)) 100, allocated thrifty).
Proof.
  apply (GrowBuffer_idempotent thrifty (allocated thrifty) fresh
           (mkSlice 0 (repeat x00 (Z.to_nat 8192)) 100) 8192 100).
  vm_compute. reflexivity.
Defined.

Lemma pool_Get_hands_out (a : allocator) (p : pool) :
  (In (fst (fst (pool_Get a p))) p /\ snd (fst (pool_Get a p)) = a) \/
  (fst (fst (pool_Get a p)) = mkSlice (next_ptr a) (repeat x00 (Z.to_nat 4096)) 4096 /\
   snd (fst (pool_Get a p)) = allocated a).
Proof.
  unfold pool_Get.
  destruct (pick a p) as [i|]; [|right; split; reflexivity].
  destruct (nth_error p i) as [b|] eqn:Hnth; [|right; split; reflexivity].
  left. split; [|reflexivity]. cbn [fst]. exact (nth_error_In p i Hnth).
Qed.

(** X5: [GetBuffer] works on the buffer the pool hands out: one of the
    buffers put back earlier, or a new array of 4096 zero bytes.  It panics
    exactly when the requested length exceeds the requested capacity, or is
    negative, or that buffer has to grow and the runtime refuses the
    allocation.  Otherwise it returns a buffer of the requested length and
    of at least the requested capacity, which is not cleared: the content
    of the array the pool has handed out is at the front of its array. *)
Theorem GetBuffer_spec (a : allocator) (p : pool) (capacity length : Z) :
  let got := fst (fst (pool_Get a p)) in
  (In got p \/ got = mkSlice (next_ptr a) (repeat x00 (Z.to_nat 4096)) 4096) /\
  match GetBuffer a p capacity length with
  | Panic _ =>
      length > capacity \/ length < 0 \/
      cap got < capacity /\
      (refused a 0 (capacity - cap got) = true \/
       refused a (cap got) (capacity - cap got) = true)
  | Ok (b, a', p') =>
      0 <= length <= capacity /\
      (cap got < capacity ->
       refused a 0 (capacity - cap got) = false /\
       refused a (cap got) (capacity - cap got) = false) /\
      len b = length /\
      capacity <= cap b /\
      firstn (Datatypes.length (store got)) (store b) = store got
  end.
Proof.
  cbv zeta. split.
  { destruct (pool_Get_hands_out a p) as [[Hin _]|[Hnew _]]; [left|right]; assumption. }
  unfold GetBuffer. cbv zeta.
  assert (Hsame : forall c n, refused (snd (fst (pool_Get a p))) c n = refused a c n).
  { intros c n. destruct (pool_Get_hands_out a p) as [[_ ->]|[_ ->]]; reflexivity. }
  destruct (GrowBuffer_cases (snd (fst (pool_Get a p))) (fst (fst (pool_Get a p)))
              capacity length)
    as [[[q Hq] Hwhy] | [(Hl & Hfit & Hg) | (Hl & Hgrow & Hmake & Happend & Hg)]].
  - rewrite Hq. cbn [bind]. rewrite !Hsame in Hwhy. exact Hwhy.
  - rewrite Hg. cbn [bind fst snd len store].
    split; [lia|]. split; [lia|]. split; [reflexivity|]. split; [exact Hfit|].
    apply firstn_all.
  - rewrite Hg. cbn [bind fst snd len store]. rewrite !Hsame in *.
    split; [lia|]. split; [intros _; split; assumption|].
    split; [reflexivity|]. split.
    { unfold cap. cbn [store]. rewrite !length_app, !repeat_length.
      unfold cap in Hgrow. lia. }
    rewrite firstn_app, Nat.sub_diag, firstn_all. cbn [firstn]. apply app_nil_r.
Qed.

(** ** What the loops leave of the server's lifecycle *)

Lemma same_lifecycle_refl (st : state) : same_lifecycle st st.
Proof.
  repeat split.
Qed.

Lemma same_lifecycle_trans (st1 st2 st3 : state) :
  same_lifecycle st1 st2 -> same_lifecycle st2 st3 -> same_lifecycle st1 st3.
Proof.
  intros (A1 & A2 & A3 & A4 & A5) (B1 & B2 & B3 & B4 & B5).
  repeat split; congruence.
Qed.

Lemma same_lifecycle_emit (ev : event) (st : state) :
  same_lifecycle st (emit ev st).
Proof.
  repeat split.
Qed.

Lemma same_lifecycle_with_memory (a : allocator) (p : pool) (st : state) :
  same_lifecycle st (with_memory a p st).
Proof.
  repeat split.
Qed.

Lemma frames_lifecycle (Start : list byte -> Header + error) (H : Type)
      (server : Server H) (c : Context) (conn : StreamTester) (fuel : nat) :
  forall (cur : cursor) (st : state) (hw : hworld H),
    same_lifecycle st (snd (fst (fst (frames Start fuel server c conn cur st hw)))).
Proof.
  induction fuel as [|fuel IH]; intros cur st hw.
  - simpl. destruct (wpos cur - rpos cur >=? 14); apply same_lifecycle_refl.
  - rewrite frames_step.
    destruct (wpos cur - rpos cur >=? 14); [|apply same_lifecycle_refl].
    destruct (b <- from (buf cur) (rpos cur);; DecodeLength b) as [size|p];
      [|apply same_lifecycle_refl].
    destruct (GrowBuffer (runtime st) (buf cur) size size) as [[grown a]|p];
      [|apply same_lifecycle_refl].
    destruct (size >? wpos cur - (rpos cur + 2));
      [apply same_lifecycle_with_memory|].
    destruct (sub grown (rpos cur + 2) (rpos cur + 2 + size)) as [payload|p];
      [|apply same_lifecycle_with_memory].
    cbv zeta.
    eapply same_lifecycle_trans; [apply same_lifecycle_with_memory|].
    eapply same_lifecycle_trans; [apply same_lifecycle_emit|].
    apply IH.
Qed.

Lemma stream_loop_lifecycle (Start : list byte -> Header + error) (H : Type)
      (server : Server H) (c : Context) (conn : StreamTester) (fuel : nat) :
  forall (chs : list (list byte)) (cur : cursor) (st : state) (hw : hworld H),
    same_lifecycle st
      (snd (fst (fst (stream_loop Start fuel server c conn chs cur st hw)))).
Proof.
  induction fuel as [|fuel IH]; intros chs cur st hw.
  - apply same_lifecycle_refl.
  - simpl.
    destruct (read chs cur) as [[[cur1 err] chs1]|p]; [|apply same_lifecycle_refl].
    pose proof (frames_lifecycle Start H server c conn
                  (Z.to_nat (wpos cur1 - rpos cur1)) cur1
                  (emit (EvBlock (ConnOf (st_id conn))) st) hw) as Hfr.
    destruct (frames Start _ server c conn cur1 _ hw) as [[[cA stA] hwA] eA].
    simpl in Hfr.
    assert (Hst : same_lifecycle st stA).
    { eapply same_lifecycle_trans; [apply same_lifecycle_emit | exact Hfr]. }
    simpl.
    destruct eA as [[]|p|]; try exact Hst.
    destruct (is_EOF err); [exact Hst|].
    destruct (negb (is_nil err)).
    { simpl. eapply same_lifecycle_trans; [exact Hst | apply same_lifecycle_emit]. }
    destruct (compact cA) as [cur2|p]; [|exact Hst].
    eapply same_lifecycle_trans; [exact Hst | apply IH].
Qed.

(** X6: however its loop ends (end of stream, read error, panic),
    [HandleStream] has closed its connection, once, when it is left, and
    nothing else; it leaves the closers, the task counter and the base
    context of the server as they were. *)
Theorem HandleStream_closes_its_connection
        (Start : list byte -> Header + error) (H : Type)
        (server : Server H) (c : Context) (conn : StreamTester)
        (st : state) (hw : hworld H) :
  let st' := fst (fst (HandleStream Start server c conn st hw)) in
  closed st' = ConnOf (st_id conn) :: closed st /\
  (exists evs, trace st' = trace st ++ evs ++ [EvClose (ConnOf (st_id conn))]) /\
  entries st' = entries st /\
  tasks st' = tasks st /\
  base st' = base st /\
  canceled st' = canceled st.
Proof.
  cbv zeta. unfold HandleStream.
  destruct (GetBuffer (runtime st) (buffers st) 4096 4096) as [[[b a] p]|p].
  - set (c' := match ConnContext server with
               | Some g => g c (ConnOf (st_id conn))
               | None => c
               end).
    pose proof (stream_loop_lifecycle Start H server c' conn (S (budget (chunks conn)))
                  (chunks conn) (mkCursor b 0 0) (with_memory a p st) hw)
      as (L1 & L2 & L3 & L4 & L5).
    pose proof (stream_loop_extends Start H server c' conn (S (budget (chunks conn)))
                  (chunks conn) (mkCursor b 0 0) (with_memory a p st) hw)
      as (evs & Ht & _ & _).
    destruct (stream_loop Start _ server c' conn _ _ _ hw) as [[[cA stA] hwA] eA].
    cbn [fst snd] in *. unfold Close, emit, with_memory in *.
    cbn [fst snd closed trace entries tasks base canceled] in *.
    rewrite L1, L2, L3, L4, L5, Ht.
    split; [reflexivity|]. split; [|repeat split].
    exists evs. rewrite app_assoc. reflexivity.
  - cbn [fst snd]. unfold Close, emit.
    cbn [fst snd closed trace entries tasks base canceled].
    split; [reflexivity|]. split; [|repeat split].
    exists []. reflexivity.
Qed.

(** ** The datagram loop *)

Lemma firstn_min_length (n : nat) (l : list byte) :
  firstn (Nat.min n (Datatypes.length l)) l = firstn n l.
Proof.
  destruct (Nat.le_ge_cases n (Datatypes.length l)) as [Hle|Hge].
  - rewrite Nat.min_l by exact Hle. reflexivity.
  - rewrite Nat.min_r by exact Hge. rewrite firstn_all, firstn_all2 by exact Hge.
    reflexivity.
Qed.

Lemma length_write_front (st data : list byte) :
  (Datatypes.length data <= Datatypes.length st)%nat ->
  Datatypes.length (write_at st 0 data) = Datatypes.length st.
Proof.
  intros Hfit. unfold write_at. simpl.
  rewrite length_app, length_skipn. lia.
Qed.

(** [copy(buf, src)] and then [buf[:n]] with the count [n] it returned: the
    front of [src], as much as the length of [buf] takes. *)
Lemma copy_then_cut (dst : slice) (src : list byte) :
  0 <= len dst <= cap dst ->
  sub (fst (copy dst src)) 0 (snd (copy dst src))
  = Ok (firstn (Z.to_nat (len dst)) src).
Proof.
  intros Hl. unfold copy. cbn [fst snd].
  set (n := Z.min (len dst) (Z.of_nat (Datatypes.length src))).
  assert (Hdata : Datatypes.length (firstn (Z.to_nat n) src) = Z.to_nat n)
    by (rewrite length_firstn; lia).
  unfold sub, cap. cbn [store].
  rewrite length_write_front by (unfold cap in Hl; lia).
  destruct (Z.leb_spec 0 0); [|lia].
  destruct (Z.leb_spec 0 n); [|lia].
  destruct (Z.leb_spec n (Z.of_nat (Datatypes.length (store dst))));
    [|unfold cap in Hl; lia].
  cbn [andb]. f_equal.
  rewrite Z.sub_0_r. change (Z.to_nat 0) with 0%nat. cbn [skipn].
  unfold write_at. cbn [firstn app Nat.add].
  rewrite <- (Nat.add_0_r (Z.to_nat n)) at 1. rewrite <- Hdata at 1.
  rewrite firstn_app_2. cbn [firstn]. rewrite app_nil_r.
  replace (Z.to_nat n) with (Nat.min (Z.to_nat (len dst)) (Datatypes.length src))
    by lia.
  apply firstn_min_length.
Qed.

Lemma started_app (l1 l2 : list event) :
  started (l1 ++ l2) = started l1 ++ started l2.
Proof.
  induction l1 as [|[] l1 IH]; simpl; rewrite ?IH; reflexivity.
Qed.

Lemma Serve_loop_spec (Start : list byte -> Header + error) (H : Type)
      (server : Server H) (c : Context) (conn : DatagramTester)
      (dgs : list Datagram) :
  forall (st : state) (hw : hworld H),
    snd (Serve_loop Start server c conn dgs st hw) = Returned net_ErrClosed /\
    started (trace (fst (fst (Serve_loop Start server c conn dgs st hw))))
    = started (trace st) ++ map (fun d => GoHandle (datagram_dispatch c conn d)) dgs /\
    same_lifecycle st (fst (fst (Serve_loop Start server c conn dgs st hw))) /\
    registered (trace (fst (fst (Serve_loop Start server c conn dgs st hw))))
    = registered (trace st).
Proof.
  induction dgs as [|d rest IH]; intros st hw.
  - cbn [Serve_loop].
    destruct (GetBuffer_ok (runtime st) (buffers st) 4096 4096)
      as (b & a & p & Hget & Hlen & Hcap); [lia|].
    rewrite Hget. cbn [fst snd map].
    split; [reflexivity|].
    unfold emit. cbn [trace with_memory]. rewrite started_app, registered_app.
    cbn [started registered]. rewrite !app_nil_r.
    split; [reflexivity|]. split; [repeat split | reflexivity].
  - cbn [Serve_loop].
    destruct (GetBuffer_ok (runtime st) (buffers st) 4096 4096)
      as (b & a & p & Hget & Hlen & Hcap); [lia|].
    rewrite Hget. cbv zeta.
    rewrite copy_then_cut by lia. rewrite Hlen.
    change (Z.to_nat 4096) with 4096%nat.
    rewrite Handle_returns.
    match goal with
    | |- context [Serve_loop Start server c conn rest ?st' ?hw'] =>
        destruct (IH st' hw') as (Hex & Hd & Hl & Hr);
        assert (Hst : same_lifecycle st st' /\
                      started (trace st') =
                      started (trace st) ++ [GoHandle (datagram_dispatch c conn d)] /\
                      registered (trace st') = registered (trace st))
    end.
    { split.
      - repeat split. cbn. lia.
      - unfold emit, Add, with_memory.
        cbn [trace]. rewrite !started_app, !registered_app. cbn.
        rewrite !app_nil_r. split; reflexivity. }
    destruct Hst as (Hl0 & Hd0 & Hr0).
    split; [exact Hex|].
    split; [rewrite Hd, Hd0, <- app_assoc; reflexivity|].
    split; [eapply same_lifecycle_trans; [exact Hl0 | exact Hl]|].
    rewrite Hr. exact Hr0.
Qed.

Lemma Context_of_spec (st : state) :
  same_lifecycle
    (mkState (entries st) (tasks st) (Some (fst (Context_of st))) (canceled st)
             (closed st) (buffers st) (runtime st) (trace st))
    (snd (Context_of st)) /\
  trace (snd (Context_of st)) = trace st /\
  fst (Context_of st) = match base st with
                        | Some c => c
                        | None => WithCancel Background
                        end.
Proof.
  unfold Context_of. destruct (base st) eqn:Hb; cbn [fst snd].
  - repeat split. cbn. exact Hb.
  - repeat split.
Qed.

(** X7: [Serve] starts one goroutine for every datagram, in the order of
    arrival, and each is to call [Handle] with the first 4096 bytes of its
    datagram (what is behind them is dropped without notice), a packet
    writer bound to the sender, and a request that carries the connection's
    local address, the sender's address and the loop's context.  In what
    order these goroutines run, and whether they have when [Serve] returns,
    is the scheduler's matter and not stated.  When [ReadFrom] fails,
    [Serve] returns that error; it never panics. *)
Theorem Serve_starts_a_dispatch_per_datagram
        (Start : list byte -> Header + error) (H : Type)
        (server : Server H) (conn : DatagramTester) (st : state) (hw : hworld H) :
  let c := loop_context server (dt_LocalAddr conn) st in
  snd (Serve Start server conn st hw) = Returned net_ErrClosed /\
  started (trace (fst (fst (Serve Start server conn st hw))))
  = started (trace st)
    ++ map (fun d => GoHandle (datagram_dispatch c conn d)) (datagrams conn).
Proof.
  cbv zeta. unfold Serve, loop_context. cbv zeta.
  set (me := mkCloser (PacketConnOf (dt_id conn)) (dt_Close conn)).
  set (st0 := AddCloser me (Add 1 st)).
  assert (Hc : fst (Context_of st0) = fst (Context_of st)).
  { destruct (Context_of_spec st0) as (_ & _ & ->).
    destruct (Context_of_spec st) as (_ & _ & ->). reflexivity. }
  rewrite Hc.
  set (c := match BaseContext server with
            | Some f => f (fst (Context_of st)) (dt_LocalAddr conn)
            | None => fst (Context_of st)
            end).
  destruct (Serve_loop_spec Start H server c conn (datagrams conn)
              (snd (Context_of st0)) hw) as (Hex & Hd & _ & _).
  cbn [fst snd]. split; [exact Hex|].
  unfold Close, Add, emit. cbn [snd trace].
  rewrite started_app, Hd. cbn [started]. rewrite app_nil_r.
  destruct (Context_of_spec st0) as (_ & -> & _).
  unfold st0, AddCloser, Add, emit. cbn [trace].
  rewrite started_app. cbn [started]. rewrite app_nil_r. reflexivity.
Qed.

(** X8: when [Serve] returns, its connection is registered as a closer (the
    only one it has added) and closed, and the server's base context is
    initialised, not cancelled: the one it had, or a new cancellable
    one. *)
Theorem Serve_lifecycle
        (Start : list byte -> Header + error) (H : Type)
        (server : Server H) (conn : DatagramTester) (st : state) (hw : hworld H) :
  let st' := fst (fst (Serve Start server conn st hw)) in
  entries st' = entries st ++ [mkCloser (PacketConnOf (dt_id conn)) (dt_Close conn)] /\
  registered (trace st') = registered (trace st) ++ [PacketConnOf (dt_id conn)] /\
  closed st' = PacketConnOf (dt_id conn) :: closed st /\
  base st' = Some (fst (Context_of st)) /\
  canceled st' = canceled st.
Proof.
  cbv zeta. unfold Serve. cbv zeta.
  set (me := mkCloser (PacketConnOf (dt_id conn)) (dt_Close conn)).
  set (st0 := AddCloser me (Add 1 st)).
  set (c := match BaseContext server with
            | Some f => f (fst (Context_of st0)) (dt_LocalAddr conn)
            | None => fst (Context_of st0)
            end).
  destruct (Serve_loop_spec Start H server c conn (datagrams conn)
              (snd (Context_of st0)) hw)
    as (_ & _ & (L1 & _ & L3 & L4 & L5) & Hr).
  destruct (Context_of_spec st0) as ((C1 & _ & C3 & C4 & C5) & Ct & Hf).
  assert (Hc : fst (Context_of st0) = fst (Context_of st)).
  { rewrite Hf. destruct (Context_of_spec st) as (_ & _ & ->). reflexivity. }
  cbn [fst snd]. unfold Close, Add, emit.
  cbn [snd entries trace closed tasks base canceled closes].
  rewrite L1, L3, L4, L5, C1, C3, C4, C5.
  cbn [entries tasks base canceled closed].
  rewrite registered_app, Hr, Ct, Hc. cbn [registered]. rewrite app_nil_r.
  unfold st0, AddCloser, Add, emit. cbn [entries trace closed tasks canceled].
  rewrite registered_app. cbn [registered closes me].
  repeat split; reflexivity.
Qed.

(** ** Shutdown and the closers, further *)

Lemma CloseAll_from_keeps (cs : list closer) :
  forall (err : error) (st : state),
    tasks (snd (CloseAll_from cs err st)) = tasks st /\
    canceled (snd (CloseAll_from cs err st)) = canceled st.
Proof.
  induction cs as [|c cs IH]; intros err st; [split; reflexivity|].
  cbn [CloseAll_from]. cbv zeta.
  destruct (IH (multierr_Append err (fst (Close c st))) (snd (Close c st)))
    as [Ht Hc].
  rewrite Ht, Hc. split; reflexivity.
Qed.

(** X9: a [Shutdown] that returns (the context it was given got done, or no
    task was counted) has cancelled the base context exactly when it had
    been initialised, and has changed neither the task counter nor the
    closers: they stay registered, so that a second [Shutdown] calls
    [Close] on every one of them again. *)
Theorem Shutdown_lifecycle (ctx_done : bool) (st : state) :
  Shutdown_returns ctx_done st = true ->
  Shutdown_returns ctx_done (snd (Shutdown st)) = true /\
  entries (snd (Shutdown st)) = entries st /\
  tasks (snd (Shutdown st)) = tasks st /\
  base (snd (Shutdown st)) = base st /\
  canceled (snd (Shutdown st))
  = match base st with Some _ => true | None => canceled st end /\
  closed (snd (Shutdown (snd (Shutdown st))))
  = rev (map closes (entries st)) ++ rev (map closes (entries st)) ++ closed st.
Proof.
  intros Hret.
  assert (Hone : forall s : state,
             entries (snd (Shutdown s)) = entries s /\
             tasks (snd (Shutdown s)) = tasks s /\
             base (snd (Shutdown s)) = base s /\
             canceled (snd (Shutdown s))
             = match base s with Some _ => true | None => canceled s end /\
             closed (snd (Shutdown s)) = rev (map closes (entries s)) ++ closed s).
  { intros s. unfold Shutdown, CloseAll. cbv zeta.
    destruct (CloseAll_from_result (entries s) [] s) as (_ & Hc & _ & He & Hb).
    destruct (CloseAll_from_keeps (entries s) [] s) as [Ht Hk].
    destruct (is_nil (fst (CloseAll_from (entries s) [] s)));
      cbn [base emit]; rewrite Hb; destruct (base s);
        cbn [snd entries tasks base canceled closed emit];
        rewrite ?He, ?Ht, ?Hb, ?Hk, ?Hc; repeat split. }
  destruct (Hone st) as (He & Ht & Hb & Hk & Hc).
  destruct (Hone (snd (Shutdown st))) as (_ & _ & _ & _ & Hc2).
  split; [unfold Shutdown_returns in *; rewrite Ht; exact Hret|].
  rewrite Hc2, He, Hc. repeat split; assumption.
Qed.

(** A server with three closers, an initialised base context and no task
    in flight, shut down with a context that is never done. *)
Lemma Shutdown_lifecycle_witness :
  canceled (snd (Shutdown (mkState three_closers 0 (Some (WithCancel Background))
                                   false [] [] thrifty [])))
  = true /\
  closed (snd (Shutdown (snd (Shutdown
            (mkState three_closers 0 (Some (WithCancel Background))
                     false [] [] thrifty [])))))
  = [ConnOf 3; ListenerOf 2; PacketConnOf 1; ConnOf 3; ListenerOf 2; PacketConnOf 1].
Proof.
  destruct (Shutdown_lifecycle false
              (mkState three_closers 0 (Some (WithCancel Background))
                       false [] [] thrifty [])
              eq_refl) as (_ & _ & _ & _ & Hk & Hc).
  split; [exact Hk | exact Hc].
Defined.

(** X10: the closers are closed in the order they were registered:
    [CloseAll] after [AddCloser c] closes what was registered before and
    then [c], and returns the earlier errors followed by the error of [c].
    The error of [CloseAll] is nil exactly when every [Close] returned
    nil. *)
Theorem CloseAll_after_AddCloser (c : closer) (st : state) :
  fst (CloseAll (AddCloser c st)) = fst (CloseAll st) ++ close_result c /\
  closed (snd (CloseAll (AddCloser c st))) = closes c :: closed (snd (CloseAll st)) /\
  blocked_on (trace (snd (CloseAll (AddCloser c st)))) = blocked_on (trace st) /\
  is_nil (fst (CloseAll st))
  = forallb (fun x => is_nil (close_result x)) (entries st).
Proof.
  destruct (CloseAll_aggregates st) as (He & Hc & Ht & _).
  destruct (CloseAll_aggregates (AddCloser c st)) as (He' & Hc' & Ht' & _).
  rewrite He', Hc', Ht', He, Hc.
  unfold AddCloser, emit. cbn [entries closed trace].
  rewrite !map_app, concat_app, rev_app_distr. cbn [map concat rev app].
  rewrite app_nil_r.
  split; [reflexivity|]. split; [reflexivity|]. split.
  - rewrite !blocked_on_app. cbn [blocked_on]. rewrite app_nil_r.
    assert (Hnone : forall cs : list closer,
               blocked_on (map (fun x => EvClose (closes x)) cs) = []).
    { induction cs; [reflexivity | exact IHcs]. }
    rewrite Hnone. apply app_nil_r.
  - clear. induction (entries st) as [|x xs IH]; [reflexivity|].
    cbn [map concat forallb]. rewrite <- IH.
    destruct (close_result x); reflexivity.
Qed.

(** ** Streams that deliver one whole frame per read *)

Lemma read_whole (ch : list byte) (rest : list (list byte)) (cur : cursor) :
  wpos cur = 0 ->
  0 <= len (buf cur) <= cap (buf cur) ->
  Z.of_nat (Datatypes.length ch) <= len (buf cur) ->
  read (ch :: rest) cur
  = Ok (mkCursor (mkSlice (ptr (buf cur))
                          (ch ++ skipn (Datatypes.length ch) (store (buf cur)))
                          (len (buf cur)))
                 (Z.of_nat (Datatypes.length ch)) (rpos cur),
        [], rest).
Proof.
  intros Hw Hlen Hfit. unfold read, from, sub. rewrite Hw.
  replace ((0 <=? 0) && (0 <=? len (buf cur)) && (len (buf cur) <=? cap (buf cur)))
    with true by (symmetry; rewrite !andb_true_iff, !Z.leb_le; lia).
  unfold bind. cbv zeta.
  change (Z.to_nat 0) with 0%nat. cbn [skipn].
  assert (Hroom : Datatypes.length
                    (firstn (Z.to_nat (len (buf cur) - 0)) (store (buf cur)))
                  = Z.to_nat (len (buf cur))).
  { rewrite length_firstn. unfold cap in Hlen. lia. }
  rewrite Hroom. unfold StreamTester_Read. cbv zeta.
  replace (Nat.min (Z.to_nat (len (buf cur))) (Datatypes.length ch))
    with (Datatypes.length ch) by lia.
  rewrite Nat.eqb_refl. cbn [fst snd].
  rewrite firstn_all. unfold write_at. cbn [firstn app Nat.add].
  reflexivity.
Qed.

Lemma compact_empty (cur : cursor) :
  rpos cur = wpos cur ->
  0 <= wpos cur <= cap (buf cur) ->
  0 <= len (buf cur) ->
  compact cur
  = Ok (mkCursor (mkSlice (ptr (buf cur)) (store (buf cur)) (cap (buf cur))) 0 0).
Proof.
  intros Hr Hw Hlen. unfold compact, sub. rewrite Hr.
  replace ((0 <=? wpos cur) && (wpos cur <=? wpos cur) && (wpos cur <=? cap (buf cur)))
    with true by (symmetry; rewrite !andb_true_iff, !Z.leb_le; lia).
  rewrite Z.sub_diag. change (Z.to_nat 0) with 0%nat. cbn [firstn].
  unfold bind, copy. cbv zeta. cbn [fst snd Datatypes.length].
  rewrite firstn_nil. unfold write_at. cbn [firstn app Datatypes.length Nat.add skipn].
  unfold upto, cap. cbn [store ptr len].
  replace ((0 <=? Z.of_nat (Datatypes.length (store (buf cur)))) &&
           (Z.of_nat (Datatypes.length (store (buf cur))) <=?
            Z.of_nat (Datatypes.length (store (buf cur)))))
    with true by (symmetry; rewrite !andb_true_iff, !Z.leb_le; lia).
  replace (Z.min (len (buf cur)) (Z.of_nat 0)) with 0 by lia.
  reflexivity.
Qed.

Lemma frames_whole (Start : list byte -> Header + error) (H : Type)
      (fuel : nat) (server : Server H) (c : Context) (conn : StreamTester)
      (cur : cursor) (st : state) (hw : hworld H)
      (body tail : list byte) :
  rpos cur = 0 ->
  wpos cur = 2 + Z.of_nat (Datatypes.length body) ->
  store (buf cur) = frame_of body ++ tail ->
  12 <= Z.of_nat (Datatypes.length body) < 65536 ->
  2 + Z.of_nat (Datatypes.length body) <= len (buf cur) <= cap (buf cur) ->
  frames Start (S fuel) server c conn cur st hw
  = (mkCursor (mkSlice (ptr (buf cur)) (store (buf cur))
                       (Z.of_nat (Datatypes.length body)))
              (wpos cur) (wpos cur),
     emit (EvHandle (stream_dispatch c conn body)) st,
     run_dispatch Start server hw (stream_dispatch c conn body),
     Returned tt).
Proof.
  intros Hr Hw Hs Hn Hlen. rewrite frames_step. rewrite Hr, Hw.
  replace (2 + Z.of_nat (Datatypes.length body) - 0 >=? 14) with true
    by (symmetry; apply Z.geb_le; lia).
  unfold from, sub.
  replace ((0 <=? 0) && (0 <=? len (buf cur)) && (len (buf cur) <=? cap (buf cur)))
    with true by (symmetry; rewrite !andb_true_iff, !Z.leb_le; lia).
  change (Z.to_nat 0) with 0%nat. cbn [skipn]. rewrite Hs.
  unfold frame_of at 1. cbv zeta.
  destruct (Z.to_nat (len (buf cur) - 0)) as [|[|k]] eqn:Hk; [lia | lia |].
  cbn [app firstn]. unfold bind at 1. rewrite DecodeLength_be16, be16_encode.
  unfold uint16. rewrite Z.mod_mod by lia.
  rewrite (Z.mod_small (Z.of_nat (Datatypes.length body)) 65536) by lia.
  rewrite GrowBuffer_fits by lia.
  replace (Z.of_nat (Datatypes.length body)
           >? 2 + Z.of_nat (Datatypes.length body) - (0 + 2)) with false
    by (symmetry; rewrite Z.gtb_ltb; apply Z.ltb_ge; lia).
  unfold sub.
  replace ((0 <=? 0 + 2) && (0 + 2 <=? 0 + 2 + Z.of_nat (Datatypes.length body)) &&
           (0 + 2 + Z.of_nat (Datatypes.length body)
            <=? cap (mkSlice (ptr (buf cur)) (store (buf cur))
                             (Z.of_nat (Datatypes.length body)))))
    with true
    by (symmetry; rewrite !andb_true_iff, !Z.leb_le; unfold cap in *;
        cbn [store]; lia).
  cbn [store]. rewrite Hs.
  replace (0 + 2 + Z.of_nat (Datatypes.length body) - (0 + 2))
    with (Z.of_nat (Datatypes.length body)) by lia.
  rewrite Nat2Z.id. change (Z.to_nat (0 + 2)) with 2%nat.
  unfold frame_of. cbv zeta. cbn [app skipn].
  rewrite firstn_app, Nat.sub_diag, firstn_all. cbn [firstn]. rewrite app_nil_r.
  cbv zeta. rewrite with_runtime_same.
  rewrite frames_below by (cbn [wpos rpos]; lia).
  unfold run_dispatch, stream_dispatch. cbn [d_ctx d_buf d_writer d_request].
  rewrite Z.add_0_l. reflexivity.
Qed.

Lemma budget_frames (bodies : list (list byte)) :
  (Datatypes.length bodies <= budget (map frame_of bodies))%nat.
Proof.
  induction bodies as [|body bodies IH]; cbn [map budget Datatypes.length]; lia.
Qed.

Lemma stream_loop_whole_step (Start : list byte -> Header + error) (H : Type)
      (server : Server H) (c : Context) (conn : StreamTester)
      (body : list byte) (rest : list (list byte))
      (fuel : nat) (cur : cursor) (st : state) (hw : hworld H) :
  12 <= Z.of_nat (Datatypes.length body) <= 4094 ->
  rpos cur = 0 -> wpos cur = 0 ->
  4096 <= len (buf cur) <= cap (buf cur) ->
  stream_loop Start (S fuel) server c conn (frame_of body :: rest) cur st hw
  = stream_loop Start fuel server c conn rest
      (mkCursor (mkSlice (ptr (buf cur))
                         (frame_of body
                          ++ skipn (Datatypes.length (frame_of body)) (store (buf cur)))
                         (cap (buf cur))) 0 0)
      (emit (EvHandle (stream_dispatch c conn body))
            (emit (EvBlock (ConnOf (st_id conn))) st))
      (run_dispatch Start server hw (stream_dispatch c conn body)).
Proof.
  intros Hbody Hr Hw Hlen. cbn [stream_loop].
  assert (Hframe : Z.of_nat (Datatypes.length (frame_of body))
                   = 2 + Z.of_nat (Datatypes.length body)).
  { unfold frame_of. cbv zeta. cbn [Datatypes.length].
    rewrite !Nat2Z.inj_succ. lia. }
  rewrite read_whole by lia.
  set (cur1 := mkCursor _ _ _).
  assert (Hcap : cap (buf cur1) = cap (buf cur)).
  { unfold cur1, cap. cbn [buf store]. rewrite length_app, length_skipn.
    unfold cap in Hlen. lia. }
  cbv zeta.
  destruct (Z.to_nat (wpos cur1 - rpos cur1)) as [|k] eqn:Hk;
    [unfold cur1 in Hk; cbn [wpos rpos] in Hk; lia|].
  rewrite (frames_whole Start H k server c conn cur1 _ hw body
             (skipn (Datatypes.length (frame_of body)) (store (buf cur)))).
  - cbn [fst snd]. change (is_EOF []) with false. change (negb (is_nil [])) with false.
    cbv iota.
    rewrite compact_empty.
    + cbn [buf ptr store]. unfold cap at 1. cbn [store]. fold (cap (buf cur1)).
      rewrite Hcap. reflexivity.
    + reflexivity.
    + cbn [wpos buf]. unfold cap. cbn [store]. fold (cap (buf cur1)).
      unfold cur1 at 1 2. cbn [wpos]. lia.
    + cbn [buf len]. lia.
  - unfold cur1. cbn [rpos]. exact Hr.
  - unfold cur1. cbn [wpos]. exact Hframe.
  - reflexivity.
  - lia.
  - rewrite Hcap. unfold cur1. cbn [buf len]. lia.
Qed.

Lemma stream_loop_whole_frames (Start : list byte -> Header + error) (H : Type)
      (server : Server H) (c : Context) (conn : StreamTester)
      (bodies : list (list byte)) :
  forall (fuel : nat) (cur : cursor) (st : state) (hw : hworld H),
    (Datatypes.length bodies < fuel)%nat ->
    Forall (fun body => 12 <= Z.of_nat (Datatypes.length body) <= 4094) bodies ->
    rpos cur = 0 -> wpos cur = 0 ->
    4096 <= len (buf cur) <= cap (buf cur) ->
    snd (stream_loop Start fuel server c conn (map frame_of bodies) cur st hw)
    = Returned tt /\
    dispatches (trace (snd (fst (fst
      (stream_loop Start fuel server c conn (map frame_of bodies) cur st hw)))))
    = dispatches (trace st) ++ map (stream_dispatch c conn) bodies /\
    snd (fst (stream_loop Start fuel server c conn (map frame_of bodies) cur st hw))
    = fold_left (run_dispatch Start server) (map (stream_dispatch c conn) bodies) hw.
Proof.
  induction bodies as [|body bodies IH]; intros fuel cur st hw Hfuel Hall Hr Hw Hlen;
    (destruct fuel as [|fuel]; [cbn [Datatypes.length] in Hfuel; lia|]).
  - cbn [map stream_loop]. unfold read, from, sub. rewrite Hw.
    replace ((0 <=? 0) && (0 <=? len (buf cur)) && (len (buf cur) <=? cap (buf cur)))
      with true by (symmetry; rewrite !andb_true_iff, !Z.leb_le; lia).
    unfold bind. cbv zeta. cbn [StreamTester_Read fst snd Datatypes.length].
    rewrite frames_below by (cbn [wpos rpos]; lia).
    cbn [fst snd is_EOF]. change (is_EOF io_EOF) with true. cbv iota.
    cbn [fst snd fold_left map]. rewrite app_nil_r.
    split; [reflexivity|]. split; [|reflexivity].
    apply dispatches_emit_other. reflexivity.
  - inversion Hall as [|? ? Hbody Hrest]; subst.
    cbn [map]. rewrite stream_loop_whole_step by assumption.
    set (cur2 := mkCursor _ 0 0).
    destruct (IH fuel cur2
                 (emit (EvHandle (stream_dispatch c conn body))
                       (emit (EvBlock (ConnOf (st_id conn))) st))
                 (run_dispatch Start server hw (stream_dispatch c conn body)))
      as (He & Hd & Hh).
    { cbn [Datatypes.length] in Hfuel. lia. }
    { exact Hrest. }
    { reflexivity. }
    { reflexivity. }
    { unfold cur2. cbn [buf len]. unfold cap. cbn [store].
      rewrite length_app, length_skipn. unfold cap in *.
      assert (Hframe : Datatypes.length (frame_of body)
                       = S (S (Datatypes.length body))) by reflexivity.
      lia. }
    split; [exact He|]. split; [|exact Hh].
    rewrite Hd. unfold emit at 1. cbn [trace]. rewrite dispatches_app.
    cbn [dispatches map fold_left]. rewrite dispatches_emit_other by reflexivity.
    rewrite <- app_assoc. reflexivity.
Qed.

(** X11: a connection on which every read delivers exactly one whole frame,
    with a body of 12 to 4094 bytes, is served as meant: every body is passed
    to [Handle], in the order of arrival, with a writer for the connection
    and the connection's context; the handler's world is the fold of those
    calls; and the loop returns at the end of the stream. *)
Theorem HandleStream_one_frame_per_read
      (Start : list byte -> Header + error) (H : Type)
      (server : Server H) (c : Context) (conn : StreamTester)
      (st : state) (hw : hworld H) (bodies : list (list byte)) :
  chunks conn = map frame_of bodies ->
  Forall (fun body => 12 <= Z.of_nat (Datatypes.length body) <= 4094) bodies ->
  snd (HandleStream Start server c conn st hw) = Returned tt /\
  dispatches (trace (fst (fst (HandleStream Start server c conn st hw))))
  = dispatches (trace st)
    ++ map (stream_dispatch (conn_context server c conn) conn) bodies /\
  snd (fst (HandleStream Start server c conn st hw))
  = fold_left (run_dispatch Start server)
              (map (stream_dispatch (conn_context server c conn) conn) bodies) hw.
Proof.
  intros Hchunks Hall. unfold HandleStream. fold (conn_context server c conn).
  destruct (GetBuffer_ok (runtime st) (buffers st) 4096 4096 ltac:(lia))
    as (b & a & p & Hget & Hlen & Hcap).
  rewrite Hget, Hchunks.
  destruct (stream_loop_whole_frames Start H server (conn_context server c conn) conn
              bodies (S (budget (map frame_of bodies))) (mkCursor b 0 0)
              (with_memory a p st) hw) as (He & Hd & Hh).
  { pose proof (budget_frames bodies). lia. }
  { exact Hall. }
  { reflexivity. }
  { reflexivity. }
  { cbn [buf]. lia. }
  cbn [fst snd]. split; [exact He|]. split; [|exact Hh].
  unfold Close. cbn [snd]. rewrite dispatches_emit_other by reflexivity.
  cbn [trace with_memory]. exact Hd.
Qed.

(** Two queries, each in a read of its own, to the handler of the tests. *)
Lemma HandleStream_one_frame_per_read_witness :
  snd (HandleStream Start_id recorder Background
         (stream_of (map frame_of [GenerateQuery 42; root_query])) boot ([], []))
  = Returned tt /\
  dispatches (trace (fst (fst
    (HandleStream Start_id recorder Background
       (stream_of (map frame_of [GenerateQuery 42; root_query])) boot ([], [])))))
  = dispatches (trace boot)
    ++ map (stream_dispatch
              (conn_context recorder Background
                 (stream_of (map frame_of [GenerateQuery 42; root_query])))
              (stream_of (map frame_of [GenerateQuery 42; root_query])))
           [GenerateQuery 42; root_query] /\
  snd (fst (HandleStream Start_id recorder Background
              (stream_of (map frame_of [GenerateQuery 42; root_query])) boot ([], [])))
  = fold_left (run_dispatch Start_id recorder)
      (map (stream_dispatch
              (conn_context recorder Background
                 (stream_of (map frame_of [GenerateQuery 42; root_query])))
              (stream_of (map frame_of [GenerateQuery 42; root_query])))
           [GenerateQuery 42; root_query])
      ([], []).
Proof.
  apply (HandleStream_one_frame_per_read Start_id (list Z) recorder Background
           (stream_of (map frame_of [GenerateQuery 42; root_query])) boot ([], [])
           [GenerateQuery 42; root_query]).
  - reflexivity.
  - repeat constructor; simpl; lia.
Defined.

(** ** What a connection's loop leaves of the server *)

Lemma HandleStream_state (Start : list byte -> Header + error) (H : Type)
      (server : Server H) (c : Context) (conn : StreamTester)
      (st : state) (hw : hworld H) :
  same_lifecycle
    (mkState (entries st) (tasks st) (base st) (canceled st)
             (ConnOf (st_id conn) :: closed st) (buffers st) (runtime st) (trace st))
    (fst (fst (HandleStream Start server c conn st hw))).
Proof.
  unfold HandleStream.
  destruct (GetBuffer (runtime st) (buffers st) 4096 4096) as [[[b a] p]|p].
  - set (c' := match ConnContext server with
               | Some g => g c (ConnOf (st_id conn))
               | None => c
               end).
    pose proof (stream_loop_lifecycle Start H server c' conn (S (budget (chunks conn)))
                  (chunks conn) (mkCursor b 0 0) (with_memory a p st) hw)
      as (L1 & L2 & L3 & L4 & L5).
    destruct (stream_loop Start _ server c' conn _ _ _ hw) as [[[cA stA] hwA] eA].
    cbn [fst snd] in *. unfold same_lifecycle, Close, emit, with_memory in *.
    cbn [fst snd closed trace entries tasks base canceled] in *.
    rewrite L1, L2, L3, L4, L5. repeat split.
  - repeat split.
Qed.

(** ** Compaction *)

(** X13: the shift at the end of a turn of the reassembly loop, on a cursor
    with [0 <= rpos <= wpos <= cap(buf)].  It never panics; it leaves
    [rpos = 0], the buffer at its full capacity in the same array, and as
    unread bytes the first [len(buf)] of those that were unread: all of
    them when there are at most [len(buf)], and otherwise the rest is
    dropped (the inner loop leaves [len(buf)] at the size of the frame it
    waits for). *)
Theorem compact_spec (cur : cursor) :
  0 <= rpos cur <= wpos cur ->
  wpos cur <= cap (buf cur) ->
  0 <= len (buf cur) ->
  exists cur',
    compact cur = Ok cur' /\
    rpos cur' = 0 /\
    wpos cur' = Z.min (len (buf cur)) (wpos cur - rpos cur) /\
    ptr (buf cur') = ptr (buf cur) /\
    len (buf cur') = cap (buf cur) /\
    cap (buf cur') = cap (buf cur) /\
    unread cur' = firstn (Z.to_nat (len (buf cur))) (unread cur).
Proof.
  intros Hr Hw Hlen. unfold compact, sub.
  replace ((0 <=? rpos cur) && (rpos cur <=? wpos cur) && (wpos cur <=? cap (buf cur)))
    with true by (symmetry; rewrite !andb_true_iff, !Z.leb_le; lia).
  fold (unread cur). unfold bind at 1. cbv zeta.
  assert (Hsrc : Z.of_nat (Datatypes.length (unread cur)) = wpos cur - rpos cur).
  { unfold unread. rewrite length_firstn, length_skipn. unfold cap in Hw. lia. }
  unfold copy. cbv zeta. cbn [fst snd]. rewrite Hsrc.
  set (n := Z.min (len (buf cur)) (wpos cur - rpos cur)).
  assert (Hn : Datatypes.length (firstn (Z.to_nat n) (unread cur)) = Z.to_nat n).
  { rewrite length_firstn. lia. }
  assert (Hstore : Datatypes.length
                     (write_at (store (buf cur)) 0 (firstn (Z.to_nat n) (unread cur)))
                   = Datatypes.length (store (buf cur))).
  { unfold write_at. cbn [firstn app Nat.add].
    rewrite length_app, length_skipn, Hn. unfold cap in Hw. lia. }
  unfold upto, cap. cbn [store ptr len]. rewrite Hstore.
  replace ((0 <=? Z.of_nat (Datatypes.length (store (buf cur)))) &&
           (Z.of_nat (Datatypes.length (store (buf cur))) <=?
            Z.of_nat (Datatypes.length (store (buf cur)))))
    with true by (symmetry; rewrite !andb_true_iff, !Z.leb_le; lia).
  unfold bind. eexists. split; [reflexivity|].
  cbn [rpos wpos buf ptr len store]. rewrite Hstore.
  split; [reflexivity|]. split; [reflexivity|]. split; [reflexivity|].
  split; [reflexivity|]. split; [reflexivity|].
  unfold unread at 1. cbn [rpos wpos buf store].
  rewrite Z.sub_0_r. change (Z.to_nat 0) with 0%nat. cbn [skipn].
  unfold write_at. cbn [firstn app Nat.add].
  rewrite firstn_app, Hn, Nat.sub_diag. cbn [firstn]. rewrite app_nil_r.
  rewrite firstn_all2 by lia.
  unfold n. rewrite Z2Nat.inj_min.
  replace (Z.to_nat (wpos cur - rpos cur)) with (Datatypes.length (unread cur)) by lia.
  apply firstn_min_length.
Qed.

(** The cursor the inner loop leaves after a first read of 18 of the 19
    bytes of a frame: the buffer cut to the 17 bytes of the body, so that
    the last of the 18 unread bytes is dropped. *)
Lemma compact_spec_witness :
  exists cur',
    compact (mkCursor (mkSlice 0 (firstn 18 frame19 ++ repeat x00 4078) 17) 18 0)
    = Ok cur' /\
    rpos cur' = 0 /\
    wpos cur' = 17 /\
    ptr (buf cur') = 0%nat /\
    len (buf cur') = 4096 /\
    cap (buf cur') = 4096 /\
    unread cur' = firstn 17 frame19.
Proof.
  apply (compact_spec
           (mkCursor (mkSlice 0 (firstn 18 frame19 ++ repeat x00 4078) 17) 18 0)).
  - simpl. lia.
  - vm_compute. discriminate.
  - simpl. lia.
Defined.

(** ** The base context *)

Lemma accept_loop_base (Start : list byte -> Header + error) (H : Type)
      (server : Server H) (c : Context) (listener : Listener)
      (conns : list StreamTester) :
  forall (st : state) (hw : hworld H),
    base (fst (fst (accept_loop Start server c listener conns st hw))) = base st /\
    canceled (fst (fst (accept_loop Start server c listener conns st hw)))
    = canceled st.
Proof.
  induction conns as [|conn rest IH]; intros st hw; [split; reflexivity|].
  cbn [accept_loop]. cbv zeta.
  pose proof (HandleStream_state Start H server c conn
                (emit (EvGo (GoHandleStream c (ConnOf (st_id conn))))
                      (Add 1 (emit (EvBlock (ListenerOf (l_id listener))) st))) hw)
    as (_ & _ & L3 & L4 & _).
  destruct (HandleStream Start server c conn _ hw) as [[stA hwA] eA].
  cbn [fst snd base canceled] in *.
  destruct eA as [[]|p|]; cbn [fst snd]; try (split; assumption).
  destruct (IH (Add (-1) stA) hwA) as [I3 I4].
  rewrite I3, I4. split; assumption.
Qed.

(** X14: the loops of a server work under one root context.  Whatever its
    connections do, [ServeStream] leaves the base context initialised to the
    context its first [Context()] call has returned, and does not cancel
    it; and a loop started later derives its context from the same
    root. *)
Theorem ServeStream_shares_the_base_context
        (Start : list byte -> Header + error) (H : Type)
        (server : Server H) (listener : Listener) (st : state) (hw : hworld H) :
  let st' := fst (fst (ServeStream Start server listener st hw)) in
  base st' = Some (fst (Context_of st)) /\
  canceled st' = canceled st /\
  (forall addr, loop_context server addr st' = loop_context server addr st).
Proof.
  cbv zeta.
  assert (Hbase : base (fst (fst (ServeStream Start server listener st hw)))
                  = Some (fst (Context_of st)) /\
                  canceled (fst (fst (ServeStream Start server listener st hw)))
                  = canceled st).
  { unfold ServeStream. cbv zeta. cbn [fst snd].
    unfold Close, Add, emit. cbn [snd base canceled].
    match goal with
    | |- context [accept_loop Start server ?c listener ?cs ?s hw] =>
        destruct (accept_loop_base Start H server c listener cs s hw) as [-> ->]
    end.
    unfold Context_of, AddCloser, Add, emit. cbn [base].
    destruct (base st); split; reflexivity. }
  destruct Hbase as [Hb Hc].
  split; [exact Hb|]. split; [exact Hc|].
  intros addr. unfold loop_context.
  assert (Hroot : fst (Context_of (fst (fst (ServeStream Start server listener st hw))))
                  = fst (Context_of st)).
  { unfold Context_of at 1. rewrite Hb. reflexivity. }
  rewrite Hroot. reflexivity.
Qed.

(** ** The writers when the write fails *)

Lemma written_app (l1 l2 : list event) :
  written (l1 ++ l2) = written l1 ++ written l2.
Proof.
  induction l1 as [|ev l1 IH]; [reflexivity|].
  destruct ev; cbn [app written]; rewrite IH; reflexivity.
Qed.

(** X15: [SendBuilder] of either writer, for a started builder whose
    message (with the bytes reserved in front of it) has two bytes or more.
    When the write fails, here because the connection is closed, it panics
    with the error of the write, nothing has been written and the buffer
    of the message is not returned to the pool.  When the write succeeds,
    the message has been written in one piece and its buffer, and no other,
    has been returned to the pool. *)
Theorem SendBuilder_frees_after_the_write
        (wr : ResponseWriter) (b : Builder) (st : state) :
  b_started b = true ->
  0 <= len (b_buf b) <= cap (b_buf b) ->
  2 <= len (b_buf b) + Z.of_nat (Datatypes.length (b_encoded b)) ->
  (existsb (endpoint_eqb (writer_conn wr)) (closed st) = true ->
   snd (SendBuilder wr b st) = Panic (PanicError net_ErrClosed) /\
   trace (fst (SendBuilder wr b st)) = trace st /\
   buffers (fst (SendBuilder wr b st)) = buffers st) /\
  (existsb (endpoint_eqb (writer_conn wr)) (closed st) = false ->
   snd (SendBuilder wr b st) = Ok tt /\
   exists msg,
     buffers (fst (SendBuilder wr b st)) = msg :: buffers st /\
     len msg = len (b_buf b) + Z.of_nat (Datatypes.length (b_encoded b)) /\
     written (trace (fst (SendBuilder wr b st))) = written (trace st) ++ [bytes msg]).
Proof.
  intros Hstarted Hbuf Htwo.
  destruct (bytes_append (runtime st) (b_buf b) (b_encoded b) Hbuf) as [Hbytes Hlen].
  pose proof (length_bytes (b_buf b) Hbuf) as Hpre.
  destruct wr as [conn addr|conn]; cbn [SendBuilder writer_conn].
  - unfold PacketWriter_SendBuilder, Finish. rewrite Hstarted.
    destruct (append (runtime st) (b_buf b) (b_encoded b)) as [msg a].
    cbn [fst] in Hbytes, Hlen.
    unfold PacketWriter_Send.
    replace (closed (with_runtime a st)) with (closed st) by reflexivity.
    split; intros Hconn; rewrite Hconn; cbn [fst snd].
    + repeat split.
    + split; [reflexivity|]. exists msg. split; [reflexivity|]. split; [exact Hlen|].
      cbn [trace with_memory with_runtime emit]. rewrite written_app. reflexivity.
  - unfold StreamWriter_SendBuilder, Finish. rewrite Hstarted.
    destruct (append (runtime st) (b_buf b) (b_encoded b)) as [msg a].
    cbn [fst] in Hbytes, Hlen.
    assert (Hmsg : Z.of_nat (Datatypes.length (bytes msg)) = len msg).
    { rewrite Hbytes, length_app, Hpre, Hlen. lia. }
    destruct (bytes msg) as [|m0 [|m1 rest]] eqn:Hm;
      cbn [Datatypes.length] in Hmsg; try lia.
    cbn [EncodeLength].
    set (framed := byte_of_Z (Z.shiftr (uint16 (len msg - 2)) 8)
                   :: byte_of_Z (uint16 (len msg - 2)) :: rest).
    assert (Hpoke : bytes (poke msg framed) = framed).
    { apply bytes_poke. unfold framed. cbn [Datatypes.length]. exact Hmsg. }
    unfold StreamWriter_Send.
    replace (closed (with_runtime a st)) with (closed st) by reflexivity.
    split; intros Hconn; rewrite Hconn; cbn [fst snd].
    + repeat split.
    + split; [reflexivity|]. exists (poke msg framed).
      split; [reflexivity|]. split; [exact Hlen|].
      cbn [trace with_memory with_runtime emit]. rewrite written_app. reflexivity.
Qed.

(** A message of 12 bytes behind the two bytes of [StreamWriter.Builder],
    on an open connection and on one that has been closed. *)
Lemma SendBuilder_frees_after_the_write_witness :
  snd (SendBuilder (StreamWriter (ConnOf 7))
         (mkBuilder (mkSlice 0 (repeat x00 4096) 2) (GenerateQuery 42) true)
         (snd (Close (mkCloser (ConnOf 7) []) boot)))
  = Panic (PanicError net_ErrClosed) /\
  snd (SendBuilder (StreamWriter (ConnOf 7))
         (mkBuilder (mkSlice 0 (repeat x00 4096) 2) (GenerateQuery 42) true) boot)
  = Ok tt.
Proof.
  split.
  - apply (SendBuilder_frees_after_the_write (StreamWriter (ConnOf 7))
             (mkBuilder (mkSlice 0 (repeat x00 4096) 2) (GenerateQuery 42) true)
             (snd (Close (mkCloser (ConnOf 7) []) boot)));
      [reflexivity | vm_compute; split; discriminate | simpl; lia | reflexivity].
  - apply (SendBuilder_frees_after_the_write (StreamWriter (ConnOf 7))
             (mkBuilder (mkSlice 0 (repeat x00 4096) 2) (GenerateQuery 42) true) boot);
      [reflexivity | vm_compute; split; discriminate | simpl; lia | reflexivity].
Defined.

(** ** The loops a listener starts *)




